(** * street_view.py: tile grid, tile assembly and metadata caching

    A shallow embedding of [src/street_view.py] and the properties of its
    specification.  Python integers are [Z]; Python floats are finite binary64
    values kept as a significand and an exponent; the session object and the
    outside world (requests sent, files saved, standard output, the progress
    bar) are threaded explicitly through a state-and-exception monad.  An
    image that [Image.open] returned is kept apart from a raster in memory:
    PIL reads the header when it opens a file and decodes the pixels at their
    first use. *)

From Stdlib Require Import ZArith List String Ascii Bool Lia.
From Stdlib Require Import DecimalString DecimalZ DecimalPos.
From Stdlib.Strings Require Import Byte.
Import ListNotations.
Local Open Scope string_scope.
Local Open Scope Z_scope.

Set Implicit Arguments.
Set Warnings "-register-all".

(** ** Exceptions and results *)

Inductive exn : Type :=
| AssertionError | ConnectionError | JSONDecodeError | KeyError | IndexError
| TypeError | ValueError | OverflowError | ZeroDivisionError
| UnidentifiedImageError | AttributeError | OSError.

Inductive result (A : Type) : Type :=
| Ok (a : A)
| Raise (e : exn).
Arguments Ok {A} a.
Arguments Raise {A} e.

Definition is_ok {A} (r : result A) : bool :=
  match r with Ok _ => true | Raise _ => false end.

Definition rbind {A B} (r : result A) (k : A -> result B) : result B :=
  match r with Ok a => k a | Raise e => Raise e end.

(** ** Python numbers *)

Module PyNum.

(** A finite binary64 value [mant * 2 ^ expo]. *)
Record float : Type := mkFloat { mant : Z; expo : Z }.

(** What [2 ** n] may be: an [int] or a [float]. *)
Inductive num : Type :=
| PInt (z : Z)
| PFloat (f : float).

(** Quotient [a / (b * 2^e)] rounded to the nearest integer, ties to even
    ([0 <= a], [0 < b]). *)
Definition rne_at (e a b : Z) : Z :=
  let n := if 0 <=? e then a else a * 2 ^ (- e) in
  let d := if 0 <=? e then b * 2 ^ e else b in
  let q := n / d in
  let r := n mod d in
  if 2 * r <? d then q
  else if d <? 2 * r then q + 1
  else if Z.even q then q else q + 1.

(** Exponent of the binary64 nearest to [a / b]: 53 significant bits, never
    below the subnormal exponent ([0 < a], [0 < b]). *)
Definition quot_expo (a b : Z) : Z :=
  let la := Z.log2 a in
  let lb := Z.log2 b in
  let l := if b * 2 ^ la <=? a * 2 ^ lb then la - lb else la - lb - 1 in
  Z.max (l - 52) (-1074).

(** The correctly rounded quotient of two integers, as CPython computes
    [a / b] on [int]s, and as IEEE 754 division does on two floats. *)
Definition round_quot (a b : Z) : result float :=
  if b =? 0 then Raise ZeroDivisionError
  else if a =? 0 then Ok (mkFloat 0 0)
  else
    let e := quot_expo (Z.abs a) (Z.abs b) in
    let m := rne_at e (Z.abs a) (Z.abs b) in
    if (0 <? e) && (2 ^ 1024 <=? m * 2 ^ e) then Raise OverflowError
    else Ok (mkFloat (Z.sgn a * Z.sgn b * m) e).

(** [a / b] on two [int]s. *)
Definition int_truediv (a b : Z) : result float := round_quot a b.

(** [float(a)]. *)
Definition float_of_int (a : Z) : result float := round_quot a 1.

(** [x / y] on two floats; an infinite quotient is reported as the
    [OverflowError] that [int()] raises on it. *)
Definition float_truediv (x y : float) : result float :=
  round_quot (mant x * 2 ^ Z.max 0 (expo x - expo y))
             (mant y * 2 ^ Z.max 0 (expo y - expo x)).

(** [2 ** n]: an [int] for [0 <= n], a float otherwise (zero once [2^n]
    underflows). *)
Definition pow2 (n : Z) : num :=
  if 0 <=? n then PInt (2 ^ n)
  else if -1074 <=? n then PFloat (mkFloat 1 n)
  else PFloat (mkFloat 0 0).

(** [a / p] for an [int] [a]. *)
Definition truediv (a : Z) (p : num) : result float :=
  match p with
  | PInt b => int_truediv a b
  | PFloat y => rbind (float_of_int a) (fun x => float_truediv x y)
  end.

(** [int(f)]: truncation towards zero. *)
Definition int_of_float (f : float) : Z :=
  if 0 <=? expo f then mant f * 2 ^ expo f
  else Z.quot (mant f) (2 ^ (- expo f)).

(** [math.ceil(f)]. *)
Definition ceil (f : float) : Z :=
  if 0 <=? expo f then mant f * 2 ^ expo f
  else - ((- mant f) / 2 ^ (- expo f)).

End PyNum.
Import PyNum.

(** Ceiling of a quotient of integers, as the specification writes it. *)
Definition cdiv (a b : Z) : Z := (a + b - 1) / b.

(** ** Parsed JSON *)

(** What [json.loads] returns; [None] is [JNull], and a number is an [int]
    or a finite [float]. *)
Inductive json : Type :=
| JNull
| JBool (b : bool)
| JInt (z : Z)
| JFloat (f : float)
| JStr (s : string)
| JList (l : list json)
| JDict (kvs : list (string * json)).

(** [isinstance(v, dict)]. *)
Definition is_dict (v : json) : bool :=
  match v with JDict _ => true | _ => false end.

Fixpoint assoc (k : string) (kvs : list (string * json)) : option json :=
  match kvs with
  | [] => None
  | (k', v) :: rest => if String.eqb k k' then Some v else assoc k rest
  end.

(** [v[k]] for a [str] key. *)
Definition getitem (v : json) (k : string) : result json :=
  match v with
  | JDict kvs => match assoc k kvs with Some x => Ok x | None => Raise KeyError end
  | _ => Raise TypeError
  end.

(** [v[0]]. *)
Definition getitem0 (v : json) : result json :=
  match v with
  | JList (x :: _) => Ok x
  | JList [] => Raise IndexError
  | JStr (String c _) => Ok (JStr (String c EmptyString))
  | JStr EmptyString => Raise IndexError
  | JDict _ => Raise KeyError
  | _ => Raise TypeError
  end.

(** [str(n)] for an [int]. *)
Definition string_of_Z (z : Z) : string := NilZero.string_of_int (Z.to_int z).


(** ** Images *)

Definition bytes : Type := list byte.

(** A decoded raster: mode, size and the pixel at each position (read only
    inside the size). *)
Record Image (pixel : Type) : Type := mkImage {
  mode : string;
  width : N;
  height : N;
  getpixel : N -> N -> pixel
}.
Arguments mkImage {pixel} mode width height getpixel.
Arguments mode {pixel} i.
Arguments width {pixel} i.
Arguments height {pixel} i.
Arguments getpixel {pixel} i x y.

(** An image as the program holds it: the file that [Image.open] returned,
    with its header read (mode, width, height) and the pixels of its body not
    decoded yet, or a raster in memory. *)
Inductive Picture (pixel : Type) : Type :=
| File (body : bytes) (m : string) (w h : N)
| Loaded (im : Image pixel).
Arguments File {pixel} body m w h.
Arguments Loaded {pixel} im.

(** ** The libraries the program calls *)

(** What PIL, [json], [int], [str.format] and the file system contribute is
    left open: the theorems hold for every behaviour of these. *)
Class Lib (pixel : Type) : Type := {
  (** the fill colour of [Image.new('RGB', size)] *)
  black : pixel;
  (** conversion of a pixel from one mode to another, as [paste] applies it *)
  convert : string -> string -> pixel -> pixel;
  (** what [Image.open(BytesIO(content))] reads, the header: mode, width and
      height, or the error of a body that is not identified as an image *)
  Image_header : bytes -> result (string * N * N);
  (** what [load()] decodes at the first use of the pixels of an opened file
      ([paste] and [save] call it), or the error of that decoding *)
  Image_data : bytes -> result (N -> N -> pixel);
  (** [json.loads(content)] *)
  json_loads : bytes -> result json;
  (** [int(s)] for a [str]; [None] is [ValueError] *)
  int_of_str : string -> option Z;
  (** [str.format] of a parsed JSON value *)
  str_of_json : json -> string;
  (** [str.format] of a [float] *)
  str_of_float : float -> string;
  (** whether [Image.save(path, format=...)] fails, and how *)
  save_error : string -> string -> Image pixel -> option exn;
  (** whether a [save] that fails had opened its file for writing before *)
  save_opened : string -> string -> Image pixel -> bool
}.

(** ** Responses, the world and the session *)

Record Response : Type := mkResponse { status_code : Z; content : bytes }.

(** What [requests.get] meets: a transport failure or a response, whatever
    its status. *)
Inductive outcome : Type :=
| NetError
| Resp (r : Response).

Record World (pixel : Type) : Type := mkWorld {
  (** every request issued so far, oldest first, with what came back *)
  sent : list (string * outcome);
  (** lines printed *)
  stdout : list string;
  (** the progress bar: updates done and the announced total *)
  pbar : Z * Z;
  (** files written by [Image.save]: path, format, image; oldest first *)
  files : list (string * string * Image pixel);
  (** paths that a failed [Image.save] had opened for writing: a file that
      was there is left incomplete, one that was not is removed again *)
  spoiled : list string
}.
Arguments mkWorld {pixel} sent stdout pbar files spoiled.
Arguments sent {pixel} w.
Arguments stdout {pixel} w.
Arguments pbar {pixel} w.
Arguments files {pixel} w.
Arguments spoiled {pixel} w.

Record StreetView : Type := mkStreetView {
  latitude : float;
  longitude : float;
  _num_columns : Z;
  _num_rows : Z;
  _metadata : json;
  _meta_url : option string;
  zoom_factor : Z
}.

Record State (pixel : Type) : Type := mkState {
  self : StreetView;
  world : World pixel
}.
Arguments mkState {pixel} self world.
Arguments self {pixel} s.
Arguments world {pixel} s.

(** ** The monad of state and exceptions *)

Definition M (pixel A : Type) : Type := State pixel -> result A * State pixel.

Definition ret {pixel A} (a : A) : M pixel A := fun st => (Ok a, st).

Definition raise {pixel A} (e : exn) : M pixel A := fun st => (Raise e, st).

Definition bind {pixel A B} (m : M pixel A) (k : A -> M pixel B) : M pixel B :=
  fun st =>
    match m st with
    | (Ok a, st') => k a st'
    | (Raise e, st') => (Raise e, st')
    end.

Definition lift {pixel A} (r : result A) : M pixel A := fun st => (r, st).

Declare Scope py_scope.
Delimit Scope py_scope with py.
Notation "x <- m ;; k" := (bind m (fun x => k))
  (at level 61, m at next level, right associativity) : py_scope.
Notation "m ;;; k" := (bind m (fun _ => k))
  (at level 61, right associativity) : py_scope.

(** [for x in xs: acc = body(acc, x)]. *)
Fixpoint for_each {pixel A S} (body : S -> A -> M pixel S) (xs : list A)
  (acc : S) : M pixel S :=
  match xs with
  | [] => ret acc
  | x :: rest => bind (body acc x) (fun acc' => for_each body rest acc')
  end.

(** [range(n)]. *)
Definition range (n : Z) : list Z := map Z.of_nat (seq 0 (Z.to_nat n)).

(** ** The program *)

Section Program.

Context {pixel : Type} {L : Lib pixel}.

(** The network: the outcome of the [n]-th request (counted from 0) when it
    asks for [url]. *)
Variable network : nat -> string -> outcome.

Local Abbreviation Img := (Image pixel).
Local Abbreviation Pic := (Picture pixel).
Local Abbreviation Py := (M pixel).
Local Open Scope py_scope.

(** *** PIL *)

(** [Image.new(mode, size)]: a negative size is a [ValueError]. *)
Definition Image_new (m : string) (size : Z * Z) : result Img :=
  let (w, h) := size in
  if (w <? 0) || (h <? 0) then Raise ValueError
  else Ok (mkImage m (Z.to_N w) (Z.to_N h) (fun _ _ => black)).

(** [dst.paste(im, (x0, y0))]: the pixels of [im] that fall inside [dst]
    replace those of [dst], converted to its mode; the rest of [im] is
    dropped and the size of [dst] is unchanged. *)
Definition paste (dst im : Img) (box : Z * Z) : Img :=
  let (x0, y0) := box in
  mkImage (mode dst) (width dst) (height dst)
    (fun x y =>
       let sx := Z.of_N x - x0 in
       let sy := Z.of_N y - y0 in
       if (0 <=? sx) && (sx <? Z.of_N (width im))
          && (0 <=? sy) && (sy <? Z.of_N (height im))
       then convert (mode im) (mode dst) (getpixel im (Z.to_N sx) (Z.to_N sy))
       else getpixel dst x y).

Definition get_concat_h (im1 im2 : Img) : result Img :=
  rbind (Image_new "RGB" (Z.of_N (width im1) + Z.of_N (width im2),
                          Z.of_N (height im1)))
    (fun dst =>
       let dst := paste dst im1 (0, 0) in
       let dst := paste dst im2 (Z.of_N (width im1), 0) in
       Ok dst).

Definition get_concat_v (im1 im2 : Img) : result Img :=
  rbind (Image_new "RGB" (Z.of_N (width im1),
                          Z.of_N (height im1) + Z.of_N (height im2)))
    (fun dst =>
       let dst := paste dst im1 (0, 0) in
       let dst := paste dst im2 (0, Z.of_N (height im1)) in
       Ok dst).

(** What the header says of an image, loaded or not. *)
Definition pic_mode (p : Pic) : string :=
  match p with File _ m _ _ => m | Loaded im => mode im end.

Definition pic_width (p : Pic) : N :=
  match p with File _ _ w _ => w | Loaded im => width im end.

Definition pic_height (p : Pic) : N :=
  match p with File _ _ _ h => h | Loaded im => height im end.

(** [Image.open(BytesIO(content))] as PIL runs it: the header is read, the
    pixels are not. *)
Definition Image_open_file (content : bytes) : result Pic :=
  rbind (Image_header content)
    (fun hd => Ok (File content (fst (fst hd)) (snd (fst hd)) (snd hd))).

(** [im.load()]: the raster of an image, decoded now if it was not. *)
Definition load (p : Pic) : result Img :=
  match p with
  | File body m w h => rbind (Image_data body) (fun px => Ok (mkImage m w h px))
  | Loaded im => Ok im
  end.

(** [Image.open(BytesIO(content))] followed by [load()]: the raster a body
    decodes to. *)
Definition Image_open (content : bytes) : result Img :=
  rbind (Image_open_file content) load.

(** [dst.paste(im, box)] on an image that may not be loaded: [paste] loads
    it first. *)
Definition paste_loading (dst : Img) (p : Pic) (box : Z * Z) : result Img :=
  rbind (load p) (fun im => Ok (paste dst im box)).

(** [get_concat_h] and [get_concat_v] as [download] calls them, on images
    that may not be loaded: the sizes come from the headers, and each [paste]
    loads its argument. *)
Definition concat_h (im1 im2 : Pic) : result Img :=
  rbind (Image_new "RGB" (Z.of_N (pic_width im1) + Z.of_N (pic_width im2),
                          Z.of_N (pic_height im1)))
    (fun dst =>
       rbind (paste_loading dst im1 (0, 0)) (fun dst =>
       rbind (paste_loading dst im2 (Z.of_N (pic_width im1), 0)) (fun dst =>
       Ok dst))).

Definition concat_v (im1 im2 : Pic) : result Img :=
  rbind (Image_new "RGB" (Z.of_N (pic_width im1),
                          Z.of_N (pic_height im1) + Z.of_N (pic_height im2)))
    (fun dst =>
       rbind (paste_loading dst im1 (0, 0)) (fun dst =>
       rbind (paste_loading dst im2 (0, Z.of_N (pic_height im1))) (fun dst =>
       Ok dst))).

(** *** Primitive effects *)

Definition with_self (s : StreetView) (st : State pixel) : State pixel :=
  mkState s (world st).

Definition with_world (w : World pixel) (st : State pixel) : State pixel :=
  mkState (self st) w.

(** The world after one more request. *)
Definition log_request (url : string) (o : outcome) (w : World pixel)
  : World pixel :=
  mkWorld (sent w ++ [(url, o)])%list (stdout w) (pbar w) (files w) (spoiled w).

Definition log_line (line : string) (w : World pixel) : World pixel :=
  mkWorld (sent w) (stdout w ++ [line])%list (pbar w) (files w) (spoiled w).

Definition log_pbar (p : Z * Z) (w : World pixel) : World pixel :=
  mkWorld (sent w) (stdout w) p (files w) (spoiled w).

Definition log_file (path fmt : string) (im : Img) (w : World pixel)
  : World pixel :=
  mkWorld (sent w) (stdout w) (pbar w) (files w ++ [(path, fmt, im)])%list
    (spoiled w).

Definition log_spoiled (path : string) (w : World pixel) : World pixel :=
  mkWorld (sent w) (stdout w) (pbar w) (files w) (spoiled w ++ [path])%list.

Definition get_self : Py StreetView := fun st => (Ok (self st), st).

(** [self._meta_url = u]. *)
Definition set_meta_url (u : string) : Py unit := fun st =>
  let s := self st in
  (Ok tt, with_self (mkStreetView (latitude s) (longitude s) (_num_columns s)
                       (_num_rows s) (_metadata s) (Some u) (zoom_factor s)) st).

(** [self._metadata = j]. *)
Definition set_metadata (j : json) : Py unit := fun st =>
  let s := self st in
  (Ok tt, with_self (mkStreetView (latitude s) (longitude s) (_num_columns s)
                       (_num_rows s) j (_meta_url s) (zoom_factor s)) st).

Definition print (line : string) : Py unit := fun st =>
  (Ok tt, with_world (log_line line (world st)) st).

(** [requests.get(url)]: the request is issued; a transport failure raises,
    any response is returned, whatever its status. *)
Definition requests_get (url : string) : Py Response := fun st =>
  let o := network (List.length (sent (world st))) url in
  let st' := with_world (log_request url o (world st)) st in
  match o with
  | NetError => (Raise ConnectionError, st')
  | Resp r => (Ok r, st')
  end.

(** [tqdm(total=n)]. *)
Definition tqdm (total : Z) : Py unit := fun st =>
  (Ok tt, with_world (log_pbar (0, total) (world st)) st).

(** [pbar.update()]. *)
Definition pbar_update : Py unit := fun st =>
  let w := world st in
  (Ok tt, with_world (log_pbar (fst (pbar w) + 1, snd (pbar w)) w) st).

(** [im.save(path, format=fmt)] on a raster: the file is written, or the
    save fails, before or after it opened the file. *)
Definition Image_save (im : Img) (path fmt : string) : Py unit := fun st =>
  match save_error path fmt im with
  | Some e =>
      (Raise e,
       if save_opened path fmt im
       then with_world (log_spoiled path (world st)) st
       else st)
  | None => (Ok tt, with_world (log_file path fmt im (world st)) st)
  end.

(** [im.save(path, format=fmt)] on an image that may not be loaded: the
    pixels are loaded before the file is opened. *)
Definition save (p : Pic) (path fmt : string) : Py unit :=
  im <- lift (load p) ;;
  Image_save im path fmt.

(** [int(v)] on a parsed JSON value. *)
Definition py_int (v : json) : result Z :=
  match v with
  | JInt z => Ok z
  | JBool b => Ok (if b then 1 else 0)
  | JFloat f => Ok (int_of_float f)
  | JStr s => match int_of_str s with Some z => Ok z | None => Raise ValueError end
  | _ => Raise TypeError
  end.

(** *** class StreetView *)

Definition __init__ (lat lon : float) (zoom : Z) : Py StreetView :=
  fun st =>
    if (zoom <? 6) && (zoom >? 0)
    then (Ok (mkStreetView lat lon 0 0 JNull None zoom), st)
    else (Raise AssertionError, st).

Definition meta_url_of (s : StreetView) : string :=
  ("https://maps.google.com/cbk?output=json&hl=x-local&ll="
     ++ str_of_float (latitude s) ++ "," ++ str_of_float (longitude s)
     ++ "&cb_client=maps_sv&v=3")%string.

Definition meta_url : Py string :=
  s <- get_self ;;
  match _meta_url s with
  | Some u => print u ;;; ret u
  | None =>
      let u := meta_url_of s in
      set_meta_url u ;;; print u ;;; ret u
  end.

Definition metadata : Py json :=
  s <- get_self ;;
  (if is_dict (_metadata s) then ret tt
   else
     url <- meta_url ;;
     resp <- requests_get url ;;
     j <- lift (json_loads (content resp)) ;;
     set_metadata j) ;;;
  s <- get_self ;;
  ret (_metadata s).

Definition original_height : Py Z :=
  m <- metadata ;;
  d <- lift (getitem m "Data") ;;
  v <- lift (getitem d "image_height") ;;
  lift (py_int v).

Definition original_width : Py Z :=
  m <- metadata ;;
  d <- lift (getitem m "Data") ;;
  v <- lift (getitem d "image_width") ;;
  lift (py_int v).

Definition pano_id : Py json :=
  m <- metadata ;;
  l <- lift (getitem m "Links") ;;
  x <- lift (getitem0 l) ;;
  lift (getitem x "panoId").

Definition output_width : Py Z :=
  w <- original_width ;;
  s <- get_self ;;
  q <- lift (truediv w (pow2 (5 - zoom_factor s))) ;;
  ret (int_of_float q).

Definition output_height : Py Z :=
  h <- original_height ;;
  s <- get_self ;;
  q <- lift (truediv h (pow2 (5 - zoom_factor s))) ;;
  ret (int_of_float q).

Definition num_rows : Py Z :=
  s <- get_self ;;
  if zoom_factor s =? 2 then
    h <- output_height ;;
    q <- lift (int_truediv h 512) ;;
    ret (ceil q + 1)
  else
    h <- output_height ;;
    q <- lift (int_truediv h 512) ;;
    ret (ceil q).

Definition num_columns : Py Z :=
  w <- output_width ;;
  q <- lift (int_truediv w 512) ;;
  ret (ceil q).

Definition tile_url (pano : json) (zoom column row : Z) : string :=
  ("https://cbks2.google.com/cbk?cb_client=maps_sv.tactile&authuser=%200&hl=en&panoid="
     ++ str_of_json pano ++ "&output=tile&zoom=" ++ string_of_Z zoom
     ++ "&x=" ++ string_of_Z column ++ "&y=" ++ string_of_Z row)%string.

(** The body of the inner loop: one tile is fetched and appended to the
    right of the current slice. *)
Definition tile_step (row : Z) (cur_slice : option Pic) (column : Z)
  : Py (option Pic) :=
  p <- pano_id ;;
  s <- get_self ;;
  let url := tile_url p (zoom_factor s) column row in
  resp <- requests_get url ;;
  let content := content resp in
  cur_slice <-
    match cur_slice with
    | None =>
        im <- lift (Image_open_file content) ;;
        ret (Some im)
    | Some cur =>
        append_slice <- lift (Image_open_file content) ;;
        im <- lift (concat_h cur append_slice) ;;
        ret (Some (Loaded im))
    end ;;
  pbar_update ;;;
  ret cur_slice.

(** The body of the outer loop, on the pair ([IMAGE], [cur_slice]). *)
Definition row_step (acc : option Pic * option Pic) (row : Z)
  : Py (option Pic * option Pic) :=
  let (IMAGE, cur_slice) := acc in
  acc <-
    match cur_slice with
    | Some cur =>
        match IMAGE with
        | None => ret (Some cur, None)
        | Some img =>
            img' <- lift (concat_v img cur) ;;
            ret (Some (Loaded img'), None)
        end
    | None => ret (IMAGE, cur_slice)
    end ;;
  let (IMAGE, cur_slice) := acc : option Pic * option Pic in
  n <- num_columns ;;
  cur_slice <- for_each (tile_step row) (range n) cur_slice ;;
  ret (IMAGE, cur_slice).

Definition download (output_path output_type : string) : Py unit :=
  let IMAGE : option Pic := None in
  let cur_slice : option Pic := None in
  nr <- num_rows ;;
  nc <- num_columns ;;
  let total_tiles := nr * nc in
  tqdm total_tiles ;;;
  n <- num_rows ;;
  acc <- for_each row_step (range n) (IMAGE, cur_slice) ;;
  let (IMAGE, cur_slice) := acc : option Pic * option Pic in
  let IMAGE := match IMAGE with None => cur_slice | Some _ => IMAGE end in
  print ("Saving image to " ++ output_path)%string ;;;
  match IMAGE with
  | None => raise AttributeError
  | Some img => save img output_path output_type
  end ;;;
  print "Image saved!".

(** *** Vocabulary of the specification *)

(** The accessors as functions of the cached metadata and the zoom factor. *)
Definition original_height_of (md : json) : result Z :=
  rbind (getitem md "Data") (fun d =>
  rbind (getitem d "image_height") py_int).

Definition original_width_of (md : json) : result Z :=
  rbind (getitem md "Data") (fun d =>
  rbind (getitem d "image_width") py_int).

Definition pano_id_of (md : json) : result json :=
  rbind (getitem md "Links") (fun l =>
  rbind (getitem0 l) (fun x => getitem x "panoId")).

Definition scale (dim zoom : Z) : result Z :=
  rbind (truediv dim (pow2 (5 - zoom))) (fun q => Ok (int_of_float q)).

Definition output_width_of (md : json) (zoom : Z) : result Z :=
  rbind (original_width_of md) (fun w => scale w zoom).

Definition output_height_of (md : json) (zoom : Z) : result Z :=
  rbind (original_height_of md) (fun h => scale h zoom).

Definition tiles (dim : Z) : result Z :=
  rbind (int_truediv dim 512) (fun q => Ok (ceil q)).

Definition num_rows_of (md : json) (zoom : Z) : result Z :=
  rbind (output_height_of md zoom) (fun h =>
  rbind (tiles h) (fun n => Ok (if zoom =? 2 then n + 1 else n))).

Definition num_columns_of (md : json) (zoom : Z) : result Z :=
  rbind (output_width_of md zoom) tiles.

(** The metadata-derived accessors, and reading one. *)
Inductive accessor : Type :=
| Pano_id | Original_width | Original_height
| Output_width | Output_height | Num_rows | Num_columns.

Inductive value : Type :=
| VJson (j : json)
| VInt (z : Z).

Definition read (a : accessor) : Py value :=
  match a with
  | Pano_id => j <- pano_id ;; ret (VJson j)
  | Original_width => z <- original_width ;; ret (VInt z)
  | Original_height => z <- original_height ;; ret (VInt z)
  | Output_width => z <- output_width ;; ret (VInt z)
  | Output_height => z <- output_height ;; ret (VInt z)
  | Num_rows => z <- num_rows ;; ret (VInt z)
  | Num_columns => z <- num_columns ;; ret (VInt z)
  end.

Definition value_of (a : accessor) (md : json) (zoom : Z) : result value :=
  match a with
  | Pano_id => rbind (pano_id_of md) (fun j => Ok (VJson j))
  | Original_width => rbind (original_width_of md) (fun z => Ok (VInt z))
  | Original_height => rbind (original_height_of md) (fun z => Ok (VInt z))
  | Output_width => rbind (output_width_of md zoom) (fun z => Ok (VInt z))
  | Output_height => rbind (output_height_of md zoom) (fun z => Ok (VInt z))
  | Num_rows => rbind (num_rows_of md zoom) (fun z => Ok (VInt z))
  | Num_columns => rbind (num_columns_of md zoom) (fun z => Ok (VInt z))
  end.

(** A caller reading accessors one after the other, whatever each read
    returns or raises. *)
Fixpoint run_reads (reads : list accessor) (st : State pixel) : State pixel :=
  match reads with
  | [] => st
  | a :: rest => run_reads rest (snd (read a st))
  end.

(** Everything a caller can do with a session. *)
Inductive operation : Type :=
| Read (a : accessor)
| Meta_url
| Metadata
| Download (output_path output_type : string).

Definition run_op (op : operation) (st : State pixel) : State pixel :=
  match op with
  | Read a => snd (read a st)
  | Meta_url => snd (meta_url st)
  | Metadata => snd (metadata st)
  | Download path fmt => snd (download path fmt st)
  end.

(** The cells of a grid in row-major order, as (row, column). *)
Definition grid (nr nc : Z) : list (Z * Z) :=
  flat_map (fun row => map (fun column => (row, column)) (range nc)) (range nr).

Definition cell_url (pano : json) (zoom : Z) (cell : Z * Z) : string :=
  tile_url pano zoom (snd cell) (fst cell).

(** The requests a download issues once the metadata is resolved by its
    first statement: the tile requests. *)
Definition tile_log (output_path output_type : string) (st : State pixel)
  : list (string * outcome) :=
  skipn (List.length (sent (world (snd (num_rows st)))))
        (sent (world (snd (download output_path output_type st)))).

(** A tile fetch that came back with a body that decodes as an image. *)
Definition fetched (o : outcome) : bool :=
  match o with
  | NetError => false
  | Resp r => is_ok (Image_open (content r))
  end.

(** A tile fetch that came back with a body that [Image.open] identifies as
    an image, whether its pixels decode or not. *)
Definition opened (o : outcome) : bool :=
  match o with
  | NetError => false
  | Resp r => is_ok (Image_open_file (content r))
  end.

(** What a request brought back, its status left out. *)
Definition body (o : outcome) : option bytes :=
  match o with
  | NetError => None
  | Resp r => Some (content r)
  end.

(** An image whose pixels load, and one that may be [None]. *)
Definition loads (p : Pic) : bool := is_ok (load p).

Definition loads_opt (o : option Pic) : bool :=
  match o with Some p => loads p | None => true end.


(** Folding a list of images onto a first one with a concatenation. *)
Fixpoint fold_concat (f : Img -> Img -> result Img) (acc : Img)
  (ims : list Img) : result Img :=
  match ims with
  | [] => Ok acc
  | im :: rest => rbind (f acc im) (fun acc' => fold_concat f acc' rest)
  end.

Definition total (dims : list N) : N := fold_right N.add 0%N dims.

(** What every operation leaves of the session and of the world: the
    constructor's fields stay, [_meta_url] is set at most once and to the
    metadata URL, a cached JSON object stays, and requests and files are
    only added. *)
Definition evolves (st st' : State pixel) : Prop :=
  latitude (self st') = latitude (self st)
  /\ longitude (self st') = longitude (self st)
  /\ zoom_factor (self st') = zoom_factor (self st)
  /\ _num_columns (self st') = _num_columns (self st)
  /\ _num_rows (self st') = _num_rows (self st)
  /\ (_meta_url (self st') = _meta_url (self st)
      \/ (_meta_url (self st) = None
          /\ _meta_url (self st') = Some (meta_url_of (self st))))
  /\ (is_dict (_metadata (self st)) = true ->
      _metadata (self st') = _metadata (self st))
  /\ (exists log, sent (world st') = (sent (world st) ++ log)%list)
  /\ (exists out, files (world st') = (files (world st) ++ out)%list).

Definition preserves {A} (m : M pixel A) : Prop :=
  forall st, evolves st (snd (m st)).

(** The state after the request for [url] came back as [o]. *)
Definition requested (url : string) (o : outcome) (st : State pixel) : State pixel :=
  with_world (log_request url o (world st)) st.

(** The state after one more update of the progress bar. *)
Definition ticked (st : State pixel) : State pixel :=
  with_world (log_pbar (fst (pbar (world st)) + 1, snd (pbar (world st)))
                (world st)) st.

(** The slice after one more tile. *)
Definition extend (cur : option Pic) (tile : Pic) : result Pic :=
  match cur with
  | None => Ok tile
  | Some c => rbind (concat_h c tile) (fun im => Ok (Loaded im))
  end.

Definition all_fetched (log : list (string * outcome)) : bool :=
  forallb (fun entry => fetched (snd entry)) log.

Definition all_opened (log : list (string * outcome)) : bool :=
  forallb (fun entry => opened (snd entry)) log.

(** What a loop over tiles leaves behind, for the URLs it was to request and
    for images held at its start that load when [ok0] holds: the session
    object and the files are as they were; when it returns, all the URLs
    were requested, in order, every body was identified as an image, and
    what it holds loads if every body decodes; when it raises, the requests
    are an initial part of the URLs and some body does not decode. *)
Definition loop_post {A} (s : StreetView) (st : State pixel) (urls : list string)
  (ok0 : bool) (held : A -> bool) (res : result A * State pixel) : Prop :=
  self (snd res) = s
  /\ files (world (snd res)) = files (world st)
  /\ spoiled (world (snd res)) = spoiled (world st)
  /\ exists log,
       sent (world (snd res)) = (sent (world st) ++ log)%list
       /\ match fst res with
          | Ok a =>
              map fst log = urls /\ all_opened log = true
              /\ (ok0 = true -> all_fetched log = true -> held a = true)
          | Raise _ =>
              (exists rest, urls = (map fst log ++ rest)%list)
              /\ (ok0 = true -> all_fetched log = false)
          end.

(** The composite and the emptied slice at the start of a row. *)
Definition merged (acc : option Pic * option Pic)
  : result (option Pic * option Pic) :=
  match snd acc with
  | Some cur =>
      match fst acc with
      | None => Ok (Some cur, None)
      | Some img =>
          rbind (concat_v img cur) (fun img' => Ok (Some (Loaded img'), None))
      end
  | None => Ok acc
  end.

(** Whether the composite and the slice both load. *)
Definition both_load (acc : option Pic * option Pic) : bool :=
  loads_opt (fst acc) && loads_opt (snd acc).




(** The URLs of the tiles of one row, and of a grid row by row. *)
Definition row_urls (pano : json) (zoom row : Z) (columns : list Z)
  : list string :=
  map (fun column => tile_url pano zoom column row) columns.

Definition grid_urls (pano : json) (zoom : Z) (rows columns : list Z)
  : list string :=
  flat_map (fun row => row_urls pano zoom row columns) rows.

(** [download] after its first statement, and after its loops. *)
Definition finish (output_path output_type : string)
  (acc : option Pic * option Pic) : Py unit :=
  let (IMAGE, cur_slice) := acc in
  let IMAGE := match IMAGE with None => cur_slice | Some _ => IMAGE end in
  print ("Saving image to " ++ output_path)%string ;;;
  match IMAGE with
  | None => raise AttributeError
  | Some img => save img output_path output_type
  end ;;;
  print "Image saved!".

Definition download_body (output_path output_type : string) (nr : Z)
  : Py unit :=
  nc <- num_columns ;;
  let total_tiles := nr * nc in
  tqdm total_tiles ;;;
  n <- num_rows ;;
  acc <- for_each row_step (range n) (None, None) ;;
  finish output_path output_type acc.

(** *** The script *)

(** [self = sv]: the session the following statements work on. *)
Definition set_self (sv : StreetView) : Py unit := fun st =>
  (Ok tt, with_self sv st).

(** The float a decimal literal [num / den] denotes. *)
Definition float_literal (num den : Z) : float :=
  match round_quot num den with
  | Ok f => f
  | Raise _ => mkFloat 0 0
  end.

(** The statements under [if __name__ == "__main__"]. *)
Definition main : Py unit :=
  let latitude := float_literal 400405135 10000000 in
  let longitude := float_literal (-75426155) 1000000 in
  sv <- __init__ latitude longitude 4 ;;
  set_self sv ;;;
  nr <- num_rows ;;
  print (string_of_Z nr) ;;;
  nc <- num_columns ;;
  print (string_of_Z nc) ;;;
  download "output_image.png" "png".

(** The session the script constructs. *)
Definition main_session : StreetView :=
  mkStreetView (float_literal 400405135 10000000)
    (float_literal (-75426155) 1000000) 0 0 JNull None 4.

(** [main] after its first read of [num_rows]. *)
Definition main_rest (nr : Z) : Py unit :=
  print (string_of_Z nr) ;;;
  nc <- num_columns ;;
  print (string_of_Z nc) ;;;
  download "output_image.png" "png".

(** *** More vocabulary *)

(** A request to the metadata endpoint, by its URL. *)
Definition metadata_url (url : string) : bool :=
  String.prefix "https://maps.google.com/cbk?" url.

(** The URL [meta_url] returns on a session. *)
Definition url_of (s : StreetView) : string :=
  match _meta_url s with
  | Some u => u
  | None => meta_url_of s
  end.

(** On a session whose metadata is cached, a step that leaves the session
    object as it is and issues no request to the metadata endpoint. *)
Definition tiles_only (st st' : State pixel) : Prop :=
  is_dict (_metadata (self st)) = true ->
  self st' = self st
  /\ exists log,
       sent (world st') = (sent (world st) ++ log)%list
       /\ Forall (fun entry => metadata_url (fst entry) = false) log.

Definition only_tiles {A} (m : M pixel A) : Prop :=
  forall st, tiles_only st (snd (m st)).


(** A step that writes no file and leaves none incomplete. *)
Definition writes_nothing {A} (m : M pixel A) : Prop :=
  forall st,
    files (world (snd (m st))) = files (world st)
    /\ spoiled (world (snd (m st))) = spoiled (world st).

(** What a run that ends with the save of [download] does to the files:
    when it returns, one file is added, at the path and in the format given;
    when it raises, no file is added, and only the file at the path can have
    been left incomplete. *)
Definition saves_at (path fmt : string) (st : State pixel)
  {A} (res : result A * State pixel) : Prop :=
  match fst res with
  | Ok _ =>
      (exists im,
         files (world (snd res)) = (files (world st) ++ [(path, fmt, im)])%list)
      /\ spoiled (world (snd res)) = spoiled (world st)
  | Raise _ =>
      files (world (snd res)) = files (world st)
      /\ (spoiled (world (snd res)) = spoiled (world st)
          \/ spoiled (world (snd res)) = (spoiled (world st) ++ [path])%list)
  end.

(** *** Runs that differ in the statuses of the responses *)





End Program.

(** ** A concrete environment *)

(** Stub libraries and networks on which the program runs to a value: RGB
    pixels, a decoder that identifies every body starting with byte 0x89 as
    a 512 x 512 image and decodes its pixels when the second byte is 0x50,
    and a JSON parser that knows the bodies used below by their first
    byte. *)
Module Demo.

Definition rgb : Type := (Z * Z * Z)%type.

Definition tile (w h : N) : Image rgb :=
  mkImage "RGB" w h (fun x y => (Z.of_N x, Z.of_N y, 7)).

(** The metadata of the end-to-end scenario of the specification. *)
Definition scenario : json :=
  JDict [("Data", JDict [("image_width", JStr "16384");
                         ("image_height", JStr "8192")]);
         ("Links", JList [JDict [("panoId", JStr "X")]])].

#[export] Instance lib : Lib rgb := {|
  black := (0, 0, 0);
  convert := fun _ _ p => p;
  Image_header := fun b =>
    match b with
    | x89 :: _ => Ok ("RGB", 512%N, 512%N)
    | _ => Raise UnidentifiedImageError
    end;
  Image_data := fun b =>
    match b with
    | x89 :: x50 :: _ => Ok (getpixel (tile 512 512))
    | _ => Raise OSError
    end;
  json_loads := fun b =>
    match b with
    | x7b :: _ => Ok scenario
    | x5b :: _ => Ok (JList [])
    | _ => Raise JSONDecodeError
    end;
  int_of_str := fun s => option_map Z.of_int (NilZero.int_of_string s);
  str_of_json := fun j => match j with JStr s => s | _ => "?" end;
  str_of_float := fun f =>
    (string_of_Z (mant f) ++ "*2**" ++ string_of_Z (expo f))%string;
  save_error := fun _ _ _ => None;
  save_opened := fun _ _ _ => false
|}.

Definition is_meta (url : string) : bool := String.prefix "https://maps." url.

(** Every metadata request is answered with the scenario, every tile
    request with a tile. *)
Definition net_ok : nat -> string -> outcome := fun _ url =>
  if is_meta url then Resp (mkResponse 200 [x7b; x7d])
  else Resp (mkResponse 200 [x89; x50; x4e; x47]).

(** Every metadata request is answered with the JSON list [[]]. *)
Definition net_list : nat -> string -> outcome := fun _ _ =>
  Resp (mkResponse 200 [x5b; x5d]).

(** The first request is answered with [[]], the later ones as [net_ok]. *)
Definition net_list_then_ok : nat -> string -> outcome := fun n url =>
  match n with O => net_list n url | S _ => net_ok n url end.


(** The metadata arrives, no tile does. *)
Definition net_tiles_down : nat -> string -> outcome := fun _ url =>
  if is_meta url then Resp (mkResponse 200 [x7b; x7d]) else NetError.




(** No request gets through. *)
Definition net_down : nat -> string -> outcome := fun _ _ => NetError.

Definition empty_world : World rgb := mkWorld [] [] (0, 0) [] [].

Definition session (md : json) (zoom : Z) : StreetView :=
  mkStreetView (mkFloat 40 0) (mkFloat (-75) 0) 0 0 md None zoom.

Definition fresh (zoom : Z) : State rgb := mkState (session JNull zoom) empty_world.

(** A session whose metadata is already resolved. *)
Definition resolved (md : json) (zoom : Z) : State rgb :=
  mkState (session md zoom) empty_world.

Definition dims (w h : Z) : json :=
  JDict [("Data", JDict [("image_width", JInt w); ("image_height", JInt h)]);
         ("Links", JList [JDict [("panoId", JStr "X")]])].

(** The sizes of the files a run has written. *)
Definition sizes (st : State rgb) : list (N * N) :=
  map (fun f => (width (snd f), height (snd f))) (files (world st)).

End Demo.


(** * Properties *)

(** ** Division by a power of two is exact below [2^53] *)

Lemma neg_div_ceil (a b : Z) : 0 < b -> - ((- a) / b) = cdiv a b.
Proof.
  intros Hb. unfold cdiv.
  pose proof (Z.div_mod (a + b - 1) b ltac:(lia)) as Hdm.
  pose proof (Z.mod_pos_bound (a + b - 1) b Hb) as Hr.
  set (q := (a + b - 1) / b) in *.
  set (r := (a + b - 1) mod b) in *.
  assert (Hq : (- a) / b = - q).
  { symmetry. apply Z.div_unique with (r := b - 1 - r); [lia | nia]. }
  lia.
Qed.

Lemma rne_at_pow2 (e a k : Z) :
  0 <= a -> 0 <= k -> e <= - k ->
  rne_at e a (2 ^ k) = a * 2 ^ (- e - k).
Proof.
  intros Ha Hk He. unfold rne_at.
  assert (Hpk : 0 < 2 ^ k) by (apply Z.pow_pos_nonneg; lia).
  destruct (Z.leb_spec 0 e) as [H0|H0].
  - assert (e = 0) by lia. assert (k = 0) by lia. subst e k.
    cbn [Z.opp Z.sub Z.add Z.pow Z.pow_pos Pos.iter Z.mul Pos.mul].
    change (2 ^ 0) with 1. rewrite !Z.mul_1_r, Z.div_1_r, Z.mod_1_r.
    reflexivity.
  - assert (Hsplit : 2 ^ (- e) = 2 ^ (- e - k) * 2 ^ k).
    { rewrite <- Z.pow_add_r by lia. f_equal. lia. }
    rewrite Hsplit, Z.mul_assoc.
    rewrite Z.div_mul by lia. rewrite Z.mod_mul by lia.
    destruct (Z.ltb_spec (2 * 0) (2 ^ k)); [reflexivity | lia].
Qed.

Lemma quot_expo_pow2 (a k : Z) :
  0 < a < 2 ^ 53 -> 0 <= k <= 1074 -> quot_expo a (2 ^ k) <= - k.
Proof.
  intros Ha Hk. unfold quot_expo.
  rewrite Z.log2_pow2 by lia.
  assert (Z.log2 a < 53) by (apply Z.log2_lt_pow2; lia).
  destruct (_ <=? _); lia.
Qed.

(** On [0 <= a < 2^53], [a / 2**k] followed by [int] is the floor of the
    quotient and followed by [math.ceil] its ceiling. *)
Lemma int_truediv_pow2 (a k : Z) :
  0 <= a < 2 ^ 53 -> 0 <= k <= 1074 ->
  exists f, int_truediv a (2 ^ k) = Ok f
            /\ int_of_float f = a / 2 ^ k
            /\ ceil f = cdiv a (2 ^ k).
Proof.
  intros Ha Hk.
  assert (Hpk : 0 < 2 ^ k) by (apply Z.pow_pos_nonneg; lia).
  unfold int_truediv, round_quot.
  destruct (Z.eqb_spec (2 ^ k) 0) as [|_]; [lia|].
  destruct (Z.eqb_spec a 0) as [->|Hnz].
  - eexists; split; [reflexivity|]. unfold int_of_float, ceil, cdiv; cbn [mant expo Z.leb Z.compare Z.mul Z.opp Z.pow Z.add].
    rewrite Z.div_0_l by lia. split; [reflexivity|].
    symmetry. apply Z.div_small. lia.
  - rewrite (Z.abs_eq a), (Z.abs_eq (2 ^ k)) by lia.
    pose proof (@quot_expo_pow2 a k ltac:(lia) Hk) as He.
    set (e := quot_expo a (2 ^ k)) in *.
    rewrite rne_at_pow2 by lia.
    destruct (Z.ltb_spec 0 e) as [|_]; [lia|]. cbn [andb].
    rewrite (Z.sgn_pos a), (Z.sgn_pos (2 ^ k)) by lia.
    eexists; split; [reflexivity|].
    unfold int_of_float, ceil; cbn [mant expo].
    assert (Hj : 0 < 2 ^ (- e - k)) by (apply Z.pow_pos_nonneg; lia).
    assert (Hsplit : 2 ^ (- e) = 2 ^ k * 2 ^ (- e - k)).
    { rewrite <- Z.pow_add_r by lia. f_equal. lia. }
    destruct (Z.leb_spec 0 e) as [H0|H0].
    + assert (e = 0) by lia. assert (k = 0) by lia. subst k.
      replace e with 0 in * by lia. unfold cdiv.
      change (- 0 - 0) with 0. change (2 ^ 0) with 1. rewrite !Z.div_1_r.
      split; lia.
    + rewrite Hsplit. split.
      * rewrite Z.quot_div_nonneg by nia.
        replace (1 * 1 * (a * 2 ^ (- e - k))) with (a * 2 ^ (- e - k)) by lia.
        apply Z.div_mul_cancel_r; lia.
      * replace (- (1 * 1 * (a * 2 ^ (- e - k)))) with ((- a) * 2 ^ (- e - k)) by lia.
        rewrite Z.div_mul_cancel_r by lia.
        apply neg_div_ceil; lia.
Qed.

(** ** Decimal numerals in a URL *)






Section Properties.

Context {pixel : Type} {L : Lib pixel}.
Variable network : nat -> string -> outcome.

Local Abbreviation Img := (Image pixel).
Local Abbreviation Pic := (Picture pixel).
Local Abbreviation St := (State pixel).

(** ** Concatenation *)

Ltac bools :=
  repeat match goal with
         | |- context [?a <=? ?b] => destruct (Z.leb_spec a b)
         | |- context [?a <? ?b] => destruct (Z.ltb_spec a b)
         end; cbn [andb orb]; try reflexivity; try lia.

Lemma Image_new_ok (m : string) (w h : Z) :
  0 <= w -> 0 <= h ->
  Image_new m (w, h) = Ok (mkImage m (Z.to_N w) (Z.to_N h) (fun _ _ => black)).
Proof. intros Hw Hh. unfold Image_new. bools. Qed.

(** What [get_concat_h] returns: its size, and where each pixel comes from. *)
Lemma get_concat_h_spec (im1 im2 : Img) :
  exists r,
    get_concat_h im1 im2 = Ok r
    /\ mode r = "RGB"
    /\ width r = (width im1 + width im2)%N
    /\ height r = height im1
    /\ (forall x y, (x < width im1)%N -> (y < height im1)%N ->
          getpixel r x y = convert (mode im1) "RGB" (getpixel im1 x y))
    /\ (forall x y, (width im1 <= x < width im1 + width im2)%N ->
          (y < height im2)%N ->
          getpixel r x y
          = convert (mode im2) "RGB" (getpixel im2 (x - width im1) y))
    /\ (forall x y, (width im1 <= x)%N -> (height im2 <= y)%N ->
          getpixel r x y = black).
Proof.
  unfold get_concat_h. rewrite Image_new_ok by lia. cbn [rbind].
  eexists. split; [reflexivity|]. cbn [paste mode width height getpixel].
  repeat split; try lia.
  - intros x y Hx Hy. bools; rewrite !Z.sub_0_r, !N2Z.id; reflexivity.
  - intros x y Hx Hy. bools;
      rewrite ?Z.sub_0_r, ?N2Z.id; f_equal; f_equal; lia.
  - intros x y Hx Hy. bools.
Qed.

Lemma get_concat_v_spec (im1 im2 : Img) :
  exists r,
    get_concat_v im1 im2 = Ok r
    /\ mode r = "RGB"
    /\ width r = width im1
    /\ height r = (height im1 + height im2)%N
    /\ (forall x y, (x < width im1)%N -> (y < height im1)%N ->
          getpixel r x y = convert (mode im1) "RGB" (getpixel im1 x y))
    /\ (forall x y, (x < width im2)%N ->
          (height im1 <= y < height im1 + height im2)%N ->
          getpixel r x y
          = convert (mode im2) "RGB" (getpixel im2 x (y - height im1)))
    /\ (forall x y, (width im2 <= x)%N -> (height im1 <= y)%N ->
          getpixel r x y = black).
Proof.
  unfold get_concat_v. rewrite Image_new_ok by lia. cbn [rbind].
  eexists. split; [reflexivity|]. cbn [paste mode width height getpixel].
  repeat split; try lia.
  - intros x y Hx Hy. bools; rewrite !Z.sub_0_r, !N2Z.id; reflexivity.
  - intros x y Hx Hy. bools;
      rewrite ?Z.sub_0_r, ?N2Z.id; f_equal; f_equal; lia.
  - intros x y Hx Hy. bools.
Qed.

Lemma fold_concat_h_size (ims : list Img) : forall acc,
  exists r,
    fold_concat get_concat_h acc ims = Ok r
    /\ height r = height acc
    /\ width r = (width acc + total (map width ims))%N.
Proof.
  induction ims as [|im rest IH]; intros acc; cbn [fold_concat map total fold_right].
  - exists acc. repeat split. lia.
  - destruct (get_concat_h_spec acc im) as (r1 & -> & _ & Hw & Hh & _).
    cbn [rbind]. destruct (IH r1) as (r & Hr & Hh' & Hw').
    exists r. split; [exact Hr|]. fold (total (map width rest)). split; lia.
Qed.

Lemma fold_concat_v_size (ims : list Img) : forall acc,
  exists r,
    fold_concat get_concat_v acc ims = Ok r
    /\ width r = width acc
    /\ height r = (height acc + total (map height ims))%N.
Proof.
  induction ims as [|im rest IH]; intros acc; cbn [fold_concat map total fold_right].
  - exists acc. repeat split. lia.
  - destruct (get_concat_v_spec acc im) as (r1 & -> & _ & Hw & Hh & _).
    cbn [rbind]. destruct (IH r1) as (r & Hr & Hw' & Hh').
    exists r. split; [exact Hr|]. fold (total (map height rest)). split; lia.
Qed.

(** C9. For all images, whatever their sizes, [get_concat_h] returns an RGB
    image as wide as both together and exactly as high as the first one: the
    rows of the second image beyond that height appear nowhere, and where the
    second image is shorter the result keeps the background; [get_concat_v]
    returns an RGB image exactly as wide as the first one and as high as both
    together.  Neither raises. *)
Theorem concat_never_rejects (im1 im2 : Img) :
  (exists r,
     get_concat_h im1 im2 = Ok r
     /\ mode r = "RGB"
     /\ width r = (width im1 + width im2)%N
     /\ height r = height im1
     /\ (forall x y, (width im1 <= x < width im1 + width im2)%N ->
           (y < height im2)%N ->
           getpixel r x y
           = convert (mode im2) "RGB" (getpixel im2 (x - width im1) y))
     /\ (forall x y, (width im1 <= x)%N -> (height im2 <= y)%N ->
           getpixel r x y = black))
  /\ (exists r,
        get_concat_v im1 im2 = Ok r
        /\ mode r = "RGB"
        /\ width r = width im1
        /\ height r = (height im1 + height im2)%N
        /\ (forall x y, (x < width im2)%N ->
              (height im1 <= y < height im1 + height im2)%N ->
              getpixel r x y
              = convert (mode im2) "RGB" (getpixel im2 x (y - height im1)))
        /\ (forall x y, (width im2 <= x)%N -> (height im1 <= y)%N ->
              getpixel r x y = black)).
Proof.
  split.
  - destruct (get_concat_h_spec im1 im2) as (r & H1 & H2 & H3 & H4 & _ & H6 & H7).
    exists r. auto 10.
  - destruct (get_concat_v_spec im1 im2) as (r & H1 & H2 & H3 & H4 & _ & H6 & H7).
    exists r. auto 10.
Qed.

(** C3, as the code has it.  For every pair of images of differing heights
    horizontal concatenation does not fail: it returns an image as wide as
    both together with the height of the first one, which is not the height
    of the second.  The first image is kept, and the second is placed to its
    right unscaled: the rows it has beyond the height of the first appear
    nowhere (it is cropped), and below its last row the background is left
    (it is padded).  Likewise vertical concatenation of images of differing
    widths returns an image as high as both together with the width of the
    first one, the second image below the first, cropped on its right or
    padded with background. *)
Theorem concat_mismatch_returns (im1 im2 im3 im4 : Img) :
  height im1 <> height im2 ->
  width im3 <> width im4 ->
  (exists r, get_concat_h im1 im2 = Ok r
             /\ width r = (width im1 + width im2)%N
             /\ height r = height im1 /\ height r <> height im2
             /\ (forall x y, (x < width im1)%N -> (y < height im1)%N ->
                   getpixel r x y = convert (mode im1) "RGB" (getpixel im1 x y))
             /\ (forall x y, (width im1 <= x < width im1 + width im2)%N ->
                   (y < height im1)%N ->
                   getpixel r x y
                   = if (y <? height im2)%N
                     then convert (mode im2) "RGB"
                            (getpixel im2 (x - width im1) y)
                     else black))
  /\ (exists r, get_concat_v im3 im4 = Ok r
                /\ height r = (height im3 + height im4)%N
                /\ width r = width im3 /\ width r <> width im4
                /\ (forall x y, (x < width im3)%N -> (y < height im3)%N ->
                      getpixel r x y
                      = convert (mode im3) "RGB" (getpixel im3 x y))
                /\ (forall x y, (x < width im3)%N ->
                      (height im3 <= y < height im3 + height im4)%N ->
                      getpixel r x y
                      = if (x <? width im4)%N
                        then convert (mode im4) "RGB"
                               (getpixel im4 x (y - height im3))
                        else black)).
Proof.
  intros Hh Hw. split.
  - destruct (get_concat_h_spec im1 im2) as (r & H1 & _ & H3 & H4 & H5 & H6 & H7).
    exists r. split; [exact H1|]. split; [exact H3|]. split; [exact H4|].
    split; [congruence|]. split; [exact H5|].
    intros x y Hx Hy. destruct (N.ltb_spec y (height im2)) as [Hy2|Hy2].
    + apply H6; assumption.
    + apply H7; [apply Hx | exact Hy2].
  - destruct (get_concat_v_spec im3 im4) as (r & H1 & _ & H3 & H4 & H5 & H6 & H7).
    exists r. split; [exact H1|]. split; [exact H4|]. split; [exact H3|].
    split; [congruence|]. split; [exact H5|].
    intros x y Hx Hy. destruct (N.ltb_spec x (width im4)) as [Hx2|Hx2].
    + apply H6; assumption.
    + apply H7; [exact Hx2 | apply Hy].
Qed.

(** C7. Folding [N >= 1] tiles of one height [H] from left to right with
    [get_concat_h] gives an image of height [H] whose width is the sum of
    their widths; folding [M >= 1] rows of one width [W] with [get_concat_v]
    gives an image of width [W] whose height is the sum of their heights. *)
Theorem fold_concat_sizes (H W : N) (tile : Img) (tiles : list Img)
  (row : Img) (rows : list Img) :
  Forall (fun im => height im = H) (tile :: tiles) ->
  Forall (fun im => width im = W) (row :: rows) ->
  (exists r, fold_concat get_concat_h tile tiles = Ok r
             /\ height r = H
             /\ width r = total (map width (tile :: tiles)))
  /\ (exists r, fold_concat get_concat_v row rows = Ok r
                /\ width r = W
                /\ height r = total (map height (row :: rows))).
Proof.
  intros Htiles Hrows.
  inversion Htiles as [|? ? Htile _]; inversion Hrows as [|? ? Hrow _]; subst.
  split.
  - destruct (fold_concat_h_size tiles tile) as (r & Hr & Hh & Hw).
    exists r. repeat split; assumption.
  - destruct (fold_concat_v_size rows row) as (r & Hr & Hw & Hh).
    exists r. repeat split; assumption.
Qed.

(** ** Construction *)

Lemma init_accepts (lat lon : float) (zoom : Z) (st : St) :
  0 < zoom < 6 ->
  __init__ lat lon zoom st
  = (Ok (mkStreetView lat lon 0 0 JNull None zoom), st).
Proof.
  intros Hz. unfold __init__.
  destruct (Z.ltb_spec zoom 6); [|lia].
  destruct (Z.gtb_spec zoom 0); [|lia]. reflexivity.
Qed.

Lemma init_rejects (lat lon : float) (zoom : Z) (st : St) :
  zoom <= 0 \/ 6 <= zoom ->
  __init__ lat lon zoom st = (Raise AssertionError, st).
Proof.
  intros Hz. unfold __init__.
  destruct (Z.ltb_spec zoom 6); destruct (Z.gtb_spec zoom 0);
    cbn [andb]; try reflexivity; lia.
Qed.

Lemma init_silent (lat lon : float) (zoom : Z) (st : St) :
  snd (__init__ lat lon zoom st) = st.
Proof. unfold __init__. destruct (_ && _); reflexivity. Qed.

(** C4, at its failing input.  Constructing a session with zoom factor 5
    succeeds, where the docstring documents 1 to 4; zoom factor 0 is rejected by
    the assertion, and neither construction touches the world. *)
Theorem init_zoom_5_accepted (lat lon : float) (st : St) :
  __init__ lat lon 5 st = (Ok (mkStreetView lat lon 0 0 JNull None 5), st)
  /\ __init__ lat lon 0 st = (Raise AssertionError, st).
Proof. split; reflexivity. Qed.

(** ** How a state may evolve *)

Lemma evolves_refl (st : St) : evolves st st.
Proof.
  unfold evolves. repeat split; auto; exists []; symmetry; apply app_nil_r.
Qed.

Lemma evolves_trans (st1 st2 st3 : St) :
  evolves st1 st2 -> evolves st2 st3 -> evolves st1 st3.
Proof.
  intros (A1 & A2 & A3 & A4 & A5 & A6 & A7 & [l1 A8] & [f1 A9])
         (B1 & B2 & B3 & B4 & B5 & B6 & B7 & [l2 B8] & [f2 B9]).
  unfold evolves. repeat split; try congruence.
  - destruct A6 as [A6|[A6 A6']], B6 as [B6|[B6 B6']].
    + left. congruence.
    + right. split; [congruence|]. rewrite B6'. unfold meta_url_of.
      rewrite A1, A2. reflexivity.
    + right. split; congruence.
    + congruence.
  - intros Hd. rewrite B7; [auto|]. rewrite A7; auto.
  - exists (l1 ++ l2)%list. rewrite B8, A8. symmetry. apply app_assoc.
  - exists (f1 ++ f2)%list. rewrite B9, A9. symmetry. apply app_assoc.
Qed.

Lemma preserves_ret {A} (a : A) : preserves (ret a).
Proof. intros st. apply evolves_refl. Qed.

Lemma preserves_raise {A} (e : exn) : preserves (raise (A := A) e).
Proof. intros st. apply evolves_refl. Qed.

Lemma preserves_lift {A} (r : result A) : preserves (lift r).
Proof. intros st. apply evolves_refl. Qed.

Lemma preserves_get_self : preserves get_self.
Proof. intros st. apply evolves_refl. Qed.

Lemma preserves_bind {A B} (m : M pixel A) (k : A -> M pixel B) :
  preserves m -> (forall a, preserves (k a)) -> preserves (bind m k).
Proof.
  intros Hm Hk st. unfold bind. specialize (Hm st).
  destruct (m st) as [[a|e] st1]; cbn [snd] in *.
  - eapply evolves_trans; [exact Hm | apply Hk].
  - exact Hm.
Qed.

Lemma preserves_for_each {A S} (body : S -> A -> M pixel S) (xs : list A) :
  (forall acc x, preserves (body acc x)) ->
  forall acc, preserves (for_each body xs acc).
Proof.
  intros Hbody. induction xs as [|x rest IH]; intros acc; cbn [for_each].
  - apply preserves_ret.
  - apply preserves_bind; [apply Hbody | exact IH].
Qed.

Ltac world_only :=
  intros st; unfold evolves; cbn;
  repeat split; auto;
  try (exists []; symmetry; apply app_nil_r);
  try (eexists; reflexivity).

Lemma preserves_print (line : string) : preserves (print line).
Proof. world_only. Qed.

Lemma preserves_tqdm (n : Z) : preserves (tqdm n).
Proof. world_only. Qed.

Lemma preserves_pbar_update : preserves pbar_update.
Proof. world_only. Qed.

Lemma preserves_requests_get (url : string) : preserves (requests_get network url).
Proof.
  intros st. unfold requests_get.
  destruct (network _ url); revert st; world_only.
Qed.

Lemma preserves_Image_save (im : Img) (path fmt : string) :
  preserves (Image_save im path fmt).
Proof.
  intros st. unfold Image_save.
  destruct (save_error path fmt im); [destruct (save_opened path fmt im)|];
    revert st; world_only.
Qed.

Lemma preserves_save (p : Picture pixel) (path fmt : string) :
  preserves (save p path fmt).
Proof.
  unfold save. apply preserves_bind; [apply preserves_lift|].
  intros im. apply preserves_Image_save.
Qed.

Lemma preserves_meta_url : preserves meta_url.
Proof.
  intros st. unfold meta_url, bind, get_self, set_meta_url, print, ret.
  destruct (_meta_url (self st)) eqn:Hu; revert Hu; revert st; world_only.
Qed.

(** ** The metadata cache *)

Lemma metadata_cached (st : St) :
  is_dict (_metadata (self st)) = true ->
  metadata network st = (Ok (_metadata (self st)), st).
Proof.
  intros Hd. unfold metadata, bind, get_self, ret. rewrite Hd. reflexivity.
Qed.

Lemma preserves_metadata : preserves (metadata network).
Proof.
  intros st. unfold metadata.
  unfold bind at 1. unfold get_self at 1.
  destruct (is_dict (_metadata (self st))) eqn:Hd.
  - apply evolves_refl.
  - unfold bind at 1.
    pose proof (preserves_meta_url st) as Hu.
    assert (Hd1 : is_dict (_metadata (self (snd (meta_url st)))) = false).
    { unfold meta_url, bind, get_self, set_meta_url, print, ret.
      destruct (_meta_url (self st)); cbn; exact Hd. }
    unfold bind at 1.
    destruct (meta_url st) as [[url|e] st1]; cbn [snd] in *; [|exact Hu].
    pose proof (preserves_requests_get url st1) as Hr.
    assert (Hd2 : is_dict (_metadata (self (snd (requests_get network url st1)))) = false).
    { unfold requests_get. destruct (network _ url); cbn; exact Hd1. }
    unfold bind at 1.
    destruct (requests_get network url st1) as [[resp|e] st2]; cbn [snd] in *;
      [|eapply evolves_trans; eassumption].
    assert (H02 : evolves st st2) by (eapply evolves_trans; eassumption).
    unfold bind, lift, set_metadata, get_self, ret.
    destruct (json_loads (content resp)) as [j|e]; cbn [snd]; [|exact H02].
    destruct H02 as (A1 & A2 & A3 & A4 & A5 & A6 & A7 & A8 & A9).
    unfold evolves; cbn. repeat split; auto.
    intros Hd'. congruence.
Qed.

(** A single evaluation of [metadata] issues no request or one. *)
Lemma metadata_requests (st : St) :
  sent (world (snd (metadata network st))) = sent (world st)
  \/ exists entry,
       sent (world (snd (metadata network st)))
       = (sent (world st) ++ [entry])%list.
Proof.
  unfold metadata, bind, get_self, ret.
  destruct (is_dict (_metadata (self st))); [left; reflexivity|].
  right. unfold meta_url, bind, get_self, set_meta_url, print, ret, requests_get.
  destruct (_meta_url (self st)); cbn;
    destruct (network _ _); cbn; unfold lift, set_metadata;
    try destruct (json_loads _); cbn; eexists; reflexivity.
Qed.

(** An evaluation of [metadata] that returns gives back the cache as it then
    stands. *)
Lemma metadata_returns_cache (st st' : St) (md : json) :
  metadata network st = (Ok md, st') -> md = _metadata (self st').
Proof.
  unfold metadata, bind, get_self, ret.
  destruct (is_dict (_metadata (self st))).
  - intros [= <- <-]. reflexivity.
  - destruct (meta_url st) as [[url|e] st1]; [|discriminate].
    destruct (requests_get network url st1) as [[resp|e] st2]; [|discriminate].
    unfold lift, set_metadata. destruct (json_loads (content resp)); [|discriminate].
    intros [= <- <-]. reflexivity.
Qed.

Lemma meta_url_run (st : St) :
  meta_url st
  = (Ok (url_of (self st)),
     with_world (log_line (url_of (self st)) (world st))
       (with_self
          (mkStreetView (latitude (self st)) (longitude (self st))
             (_num_columns (self st)) (_num_rows (self st))
             (_metadata (self st)) (Some (url_of (self st)))
             (zoom_factor (self st))) st)).
Proof.
  unfold meta_url, url_of, bind, get_self, set_meta_url, print, ret.
  destruct st as [s w]. destruct s as [lat lon c rr md mu z].
  destruct mu; reflexivity.
Qed.

(** [metadata] when no JSON object is cached: the request goes to the URL of
    the session, and what happens next depends on what comes back. *)
Lemma metadata_uncached (st : St) :
  is_dict (_metadata (self st)) = false ->
  let u := url_of (self st) in
  let o := network (List.length (sent (world st))) u in
  sent (world (snd (metadata network st)))
  = (sent (world st) ++ [(u, o)])%list
  /\ _meta_url (self (snd (metadata network st))) = Some u
  /\ match o with
     | NetError =>
         fst (metadata network st) = Raise ConnectionError
         /\ _metadata (self (snd (metadata network st))) = _metadata (self st)
     | Resp r =>
         match json_loads (content r) with
         | Ok j =>
             fst (metadata network st) = Ok j
             /\ _metadata (self (snd (metadata network st))) = j
         | Raise e =>
             fst (metadata network st) = Raise e
             /\ _metadata (self (snd (metadata network st)))
                = _metadata (self st)
         end
     end.
Proof.
  intros Hd. cbv zeta.
  assert (Heq : metadata network st
                = let u := url_of (self st) in
                  let s1 := mkStreetView (latitude (self st)) (longitude (self st))
                              (_num_columns (self st)) (_num_rows (self st))
                              (_metadata (self st)) (Some u)
                              (zoom_factor (self st)) in
                  let o := network (List.length (sent (world st))) u in
                  let w2 := log_request u o (log_line u (world st)) in
                  match o with
                  | NetError => (Raise ConnectionError, mkState s1 w2)
                  | Resp r =>
                      match json_loads (content r) with
                      | Ok j =>
                          (Ok j,
                           mkState (mkStreetView (latitude (self st))
                                      (longitude (self st))
                                      (_num_columns (self st))
                                      (_num_rows (self st)) j (Some u)
                                      (zoom_factor (self st))) w2)
                      | Raise e => (Raise e, mkState s1 w2)
                      end
                  end).
  { unfold metadata, bind, get_self. rewrite Hd. rewrite meta_url_run.
    unfold requests_get, lift, set_metadata, ret. cbv zeta.
    cbn [world with_world with_self self sent log_line].
    destruct (network _ _) as [|r]; [reflexivity|].
    destruct (json_loads (content r)); reflexivity. }
  rewrite Heq. clear Heq. cbv zeta.
  destruct (network _ _) as [|r]; cbn; [repeat split|].
  destruct (json_loads (content r)); cbn; repeat split.
Qed.

(** ** The accessors *)

Lemma zoom_after_metadata (st : St) :
  zoom_factor (self (snd (metadata network st))) = zoom_factor (self st).
Proof. apply (preserves_metadata st). Qed.

Ltac pure_cases Hz :=
  repeat (rewrite Hz
          || match goal with
             | |- context [match ?r with Ok _ => _ | Raise _ => _ end] =>
                 destruct r; cbn [fst snd]
             end).

(** Every accessor evaluates [metadata] once and computes its value from
    what that returns and from the zoom factor. *)
Lemma read_run (a : accessor) (st : St) :
  read network a st
  = (rbind (fst (metadata network st))
       (fun md => value_of a md (zoom_factor (self st))),
     snd (metadata network st)).
Proof.
  pose proof (zoom_after_metadata st) as Hz.
  destruct a;
    unfold read, value_of, num_rows, num_columns,
      output_width, output_height, original_width, original_height, pano_id,
      num_rows_of, num_columns_of, output_width_of, output_height_of,
      original_width_of, original_height_of, pano_id_of,
      scale, tiles, rbind, bind, lift, ret, get_self;
    try destruct (zoom_factor (self st) =? 2) eqn:Hz2;
    destruct (metadata network st) as [[md|e] st1];
    cbn [fst snd] in *; try rewrite Hz2;
    pure_cases Hz; reflexivity.
Qed.

Lemma read_cached (a : accessor) (st : St) :
  is_dict (_metadata (self st)) = true ->
  read network a st
  = (value_of a (_metadata (self st)) (zoom_factor (self st)), st).
Proof.
  intros Hd. rewrite read_run, metadata_cached by exact Hd. reflexivity.
Qed.

Lemma run_reads_cached (reads : list accessor) (st : St) :
  is_dict (_metadata (self st)) = true -> run_reads network reads st = st.
Proof.
  intros Hd. induction reads as [|a rest IH]; cbn [run_reads]; [reflexivity|].
  rewrite read_cached by exact Hd. exact IH.
Qed.

Lemma value_of_ok_dict (a : accessor) (md : json) (zoom : Z) (v : value) :
  value_of a md zoom = Ok v -> is_dict md = true.
Proof.
  destruct md; try reflexivity;
    destruct a; cbn; discriminate.
Qed.

(** The accessors one by one, in terms of [metadata]. *)
Lemma accessor_run (st : St) :
  let z := zoom_factor (self st) in
  let r := fst (metadata network st) in
  let st' := snd (metadata network st) in
  pano_id network st = (rbind r pano_id_of, st')
  /\ original_width network st = (rbind r original_width_of, st')
  /\ original_height network st = (rbind r original_height_of, st')
  /\ output_width network st = (rbind r (fun md => output_width_of md z), st')
  /\ output_height network st = (rbind r (fun md => output_height_of md z), st')
  /\ num_rows network st = (rbind r (fun md => num_rows_of md z), st')
  /\ num_columns network st = (rbind r (fun md => num_columns_of md z), st').
Proof.
  cbv zeta.
  pose proof (zoom_after_metadata st) as Hz.
  unfold num_rows, num_columns,
      output_width, output_height, original_width, original_height, pano_id,
      num_rows_of, num_columns_of, output_width_of, output_height_of,
      original_width_of, original_height_of, pano_id_of,
      scale, tiles, rbind, bind, lift, ret, get_self.
  destruct (zoom_factor (self st) =? 2) eqn:Hz2;
    destruct (metadata network st) as [[md|e] st1];
    cbn [fst snd] in *; try rewrite Hz2;
    repeat split; pure_cases Hz; reflexivity.
Qed.

(** ** Output size and grid *)

Lemma scale_exact (dim zoom : Z) :
  0 <= dim < 2 ^ 53 -> 0 <= 5 - zoom <= 1074 ->
  scale dim zoom = Ok (dim / 2 ^ (5 - zoom)).
Proof.
  intros Hd Hz. unfold scale, pow2, truediv.
  destruct (Z.leb_spec 0 (5 - zoom)); [|lia].
  destruct (int_truediv_pow2 Hd Hz) as (f & -> & Hf & _).
  cbn [rbind]. rewrite Hf. reflexivity.
Qed.

Lemma tiles_exact (dim : Z) :
  0 <= dim < 2 ^ 53 -> tiles dim = Ok (cdiv dim 512).
Proof.
  intros Hd. unfold tiles.
  destruct (@int_truediv_pow2 dim 9 Hd ltac:(lia)) as (f & Hf & _ & Hc).
  change (2 ^ 9) with 512 in *. rewrite Hf. cbn [rbind]. rewrite Hc. reflexivity.
Qed.

Lemma scaled_bound (dim k : Z) :
  0 <= dim < 2 ^ 53 -> 0 <= k -> 0 <= dim / 2 ^ k < 2 ^ 53.
Proof.
  intros Hd Hk.
  assert (0 < 2 ^ k) by (apply Z.pow_pos_nonneg; lia).
  split.
  - apply Z.div_pos; lia.
  - apply Z.le_lt_trans with dim; [|lia].
    apply Z.div_le_upper_bound; nia.
Qed.

(** C1, below 2^53.  For every metadata whose [image_width] and
    [image_height] coerce to integers [W] and [H] with [0 <= W, H < 2^53] and
    every zoom factor from 1 to 4: the output width is the floor of
    [W / 2^(5 - zoom)] and the output height the floor of [H / 2^(5 - zoom)];
    the number of columns is the ceiling of output width over 512; the number
    of rows is the ceiling of output height over 512, plus exactly 1 when the
    zoom factor is 2 and unchanged otherwise. *)
Theorem output_size_and_grid (st st1 st2 : St) (W H : Z) :
  original_width network st = (Ok W, st1) ->
  original_height network st = (Ok H, st2) ->
  0 <= W < 2 ^ 53 ->
  0 <= H < 2 ^ 53 ->
  1 <= zoom_factor (self st) <= 4 ->
  output_width network st = (Ok (W / 2 ^ (5 - zoom_factor (self st))), st1)
  /\ output_height network st = (Ok (H / 2 ^ (5 - zoom_factor (self st))), st2)
  /\ num_columns network st
     = (Ok (cdiv (W / 2 ^ (5 - zoom_factor (self st))) 512), st1)
  /\ num_rows network st
     = (Ok (cdiv (H / 2 ^ (5 - zoom_factor (self st))) 512
            + (if zoom_factor (self st) =? 2 then 1 else 0)), st2).
Proof.
  intros HW HH BW BH Hz.
  destruct (accessor_run st) as (_ & Aw & Ah & Aow & Aoh & Anr & Anc).
  cbv zeta in *.
  rewrite Aw in HW. rewrite Ah in HH. rewrite Aow, Aoh, Anc, Anr.
  destruct (metadata network st) as [[md|e] st']; cbn [fst snd rbind] in *;
    [|discriminate].
  injection HW as HW <-. injection HH as HH <-.
  set (z := zoom_factor (self st)) in *.
  unfold num_columns_of, num_rows_of, output_width_of, output_height_of.
  rewrite HW, HH. cbn [rbind].
  rewrite !scale_exact by lia. cbn [rbind].
  rewrite !tiles_exact by (apply scaled_bound; lia). cbn [rbind].
  repeat split. destruct (z =? 2); [reflexivity|].
  rewrite Z.add_0_r. reflexivity.
Qed.

(** ** Reads and the cache *)

(** C8, as the code has it.  Every read of a metadata-derived accessor
    issues at most one metadata request.  A read made while no JSON object
    is cached issues the request, to the URL of the session, whatever was
    requested before; after it a JSON object is cached exactly when the
    response parsed to one, and then it is that object, whether the read
    itself returned or raised.  A read that returns a value leaves a JSON
    object cached.  Once a JSON object is cached no read issues a request or
    changes anything, each accessor returning on every access the same
    value, a function of the cached metadata and the zoom factor. *)
Theorem reads_fetch_until_cached (a : accessor) (st : St) :
  let st' := snd (read network a st) in
  let u := url_of (self st) in
  let o := network (List.length (sent (world st))) u in
  (sent (world st') = sent (world st)
   \/ exists entry, sent (world st') = (sent (world st) ++ [entry])%list)
  /\ (is_dict (_metadata (self st)) = false ->
      sent (world st') = (sent (world st) ++ [(u, o)])%list
      /\ is_dict (_metadata (self st'))
         = match o with
           | NetError => false
           | Resp r =>
               match json_loads (content r) with
               | Ok j => is_dict j
               | Raise _ => false
               end
           end
      /\ (forall r j,
            o = Resp r -> json_loads (content r) = Ok j -> is_dict j = true ->
            _metadata (self st') = j
            /\ forall b reads,
                 read network b st' = (value_of b j (zoom_factor (self st)), st')
                 /\ run_reads network reads st' = st'))
  /\ (is_ok (fst (read network a st)) = true ->
      is_dict (_metadata (self st')) = true)
  /\ (is_dict (_metadata (self st)) = true ->
      read network a st
      = (value_of a (_metadata (self st)) (zoom_factor (self st)), st)
      /\ forall reads, run_reads network reads st = st).
Proof.
  cbv zeta. split; [|split; [|split]].
  - rewrite read_run. cbn [snd]. apply metadata_requests.
  - intros Hd. rewrite read_run. cbn [snd].
    pose proof (zoom_after_metadata st) as Hz.
    destruct (metadata_uncached st Hd) as (Hs & _ & Ho).
    split; [exact Hs|]. split.
    + destruct (network _ _) as [|r].
      * destruct Ho as (_ & ->). exact Hd.
      * destruct (json_loads (content r)) as [j|e].
        -- destruct Ho as (_ & ->). reflexivity.
        -- destruct Ho as (_ & ->). exact Hd.
    + intros r j Hn Hj Hdj. rewrite Hn, Hj in Ho. destruct Ho as (_ & Hm).
      split; [exact Hm|]. intros b reads.
      assert (Hd' : is_dict (_metadata (self (snd (metadata network st)))) = true)
        by (rewrite Hm; exact Hdj).
      split.
      * rewrite read_cached by exact Hd'. rewrite Hm, Hz. reflexivity.
      * apply run_reads_cached. exact Hd'.
  - rewrite read_run. cbn [fst snd].
    destruct (metadata network st) as [[md|e] st'] eqn:Hm; cbn [fst snd rbind];
      [|discriminate].
    destruct (value_of a md (zoom_factor (self st))) eqn:Hv; [|discriminate].
    intros _. apply metadata_returns_cache in Hm. subst md.
    eapply value_of_ok_dict; eassumption.
  - intros Hd. split.
    + apply read_cached; assumption.
    + intros reads. apply run_reads_cached; assumption.
Qed.

(** ** What operations leave unchanged *)

Lemma snd_accessors (st : St) :
  snd (pano_id network st) = snd (metadata network st)
  /\ snd (num_rows network st) = snd (metadata network st)
  /\ snd (num_columns network st) = snd (metadata network st).
Proof.
  destruct (accessor_run st) as (-> & _ & _ & _ & _ & -> & ->).
  repeat split.
Qed.

Lemma preserves_pano_id : preserves (pano_id network).
Proof.
  intros st. destruct (snd_accessors st) as (-> & _). apply preserves_metadata.
Qed.

Lemma preserves_num_rows : preserves (num_rows network).
Proof.
  intros st. destruct (snd_accessors st) as (_ & -> & _). apply preserves_metadata.
Qed.

Lemma preserves_num_columns : preserves (num_columns network).
Proof.
  intros st. destruct (snd_accessors st) as (_ & _ & ->). apply preserves_metadata.
Qed.

Lemma preserves_read (a : accessor) : preserves (read network a).
Proof. intros st. rewrite read_run. apply preserves_metadata. Qed.

Ltac preserve :=
  repeat first
    [ apply preserves_ret | apply preserves_raise | apply preserves_lift
    | apply preserves_get_self | apply preserves_print | apply preserves_tqdm
    | apply preserves_pbar_update | apply preserves_requests_get
    | apply preserves_save | apply preserves_pano_id
    | apply preserves_num_rows | apply preserves_num_columns
    | apply preserves_bind; [|intros ?]
    | match goal with
      | |- preserves (match ?x with _ => _ end) => destruct x
      | |- preserves (let (_, _) := ?x in _) => destruct x
      end ].

Lemma preserves_tile_step (row : Z) (cur : option Pic) (column : Z) :
  preserves (tile_step network row cur column).
Proof. unfold tile_step. preserve. Qed.

Lemma preserves_row_step (acc : option Pic * option Pic) (row : Z) :
  preserves (row_step network acc row).
Proof.
  unfold row_step. preserve.
  apply preserves_for_each. intros. apply preserves_tile_step.
Qed.

Lemma preserves_download (path fmt : string) :
  preserves (download network path fmt).
Proof.
  unfold download. preserve.
  apply preserves_for_each. intros. apply preserves_row_step.
Qed.

(** C10, as the code has it.  Constructing a session leaves the world as it
    is: no request is issued.  No operation changes the latitude, longitude
    or zoom factor of a session (nor [_num_columns] and [_num_rows]); the
    only fields an operation writes are [_meta_url], written once, with the
    metadata URL, when it is first needed, and [_metadata], which is never
    written again once it holds a JSON object. *)
Theorem operations_frame (lat lon : float) (zoom : Z) (op : operation)
  (st : St) :
  snd (__init__ lat lon zoom st) = st
  /\ latitude (self (run_op network op st)) = latitude (self st)
  /\ longitude (self (run_op network op st)) = longitude (self st)
  /\ zoom_factor (self (run_op network op st)) = zoom_factor (self st)
  /\ _num_columns (self (run_op network op st)) = _num_columns (self st)
  /\ _num_rows (self (run_op network op st)) = _num_rows (self st)
  /\ (_meta_url (self (run_op network op st)) = _meta_url (self st)
      \/ (_meta_url (self st) = None
          /\ _meta_url (self (run_op network op st))
             = Some (meta_url_of (self st))))
  /\ (is_dict (_metadata (self st)) = true ->
      _metadata (self (run_op network op st)) = _metadata (self st)).
Proof.
  split; [apply init_silent|].
  assert (He : evolves st (run_op network op st)).
  { destruct op; cbn [run_op].
    - apply preserves_read.
    - apply preserves_meta_url.
    - apply preserves_metadata.
    - apply preserves_download. }
  destruct He as (A1 & A2 & A3 & A4 & A5 & A6 & A7 & _).
  repeat split; assumption.
Qed.
(** ** The download loops *)

Lemma cached_accessors (st : St) :
  is_dict (_metadata (self st)) = true ->
  pano_id network st = (pano_id_of (_metadata (self st)), st)
  /\ num_rows network st
     = (num_rows_of (_metadata (self st)) (zoom_factor (self st)), st)
  /\ num_columns network st
     = (num_columns_of (_metadata (self st)) (zoom_factor (self st)), st).
Proof.
  intros Hd.
  destruct (accessor_run st) as (Hp & _ & _ & _ & _ & Hr & Hc).
  cbv zeta in *. rewrite metadata_cached in * by exact Hd.
  cbn [fst snd rbind] in *. auto.
Qed.

(** *** Images that are not loaded yet *)

(** The header of an image is that of the raster it loads to. *)
Lemma load_header (p : Pic) (im : Img) :
  load p = Ok im ->
  mode im = pic_mode p /\ width im = pic_width p /\ height im = pic_height p.
Proof.
  destruct p as [b m w h|im']; cbn [load pic_mode pic_width pic_height].
  - destruct (Image_data b); cbn [rbind]; [|discriminate].
    intros [= <-]. repeat split.
  - intros [= <-]. repeat split.
Qed.

(** On images that may not be loaded, a concatenation loads the first, then
    the second, and concatenates the rasters. *)
Lemma concat_h_load (p1 p2 : Pic) :
  concat_h p1 p2
  = rbind (load p1) (fun im1 => rbind (load p2) (fun im2 => get_concat_h im1 im2)).
Proof.
  unfold concat_h, get_concat_h, paste_loading.
  rewrite Image_new_ok by lia. cbn [rbind].
  destruct (load p1) as [im1|e] eqn:H1; cbn [rbind]; [|reflexivity].
  destruct (load p2) as [im2|e] eqn:H2; cbn [rbind]; [|reflexivity].
  destruct (load_header _ H1) as (_ & <- & <-).
  destruct (load_header _ H2) as (_ & <- & _).
  rewrite Image_new_ok by lia. reflexivity.
Qed.

Lemma concat_v_load (p1 p2 : Pic) :
  concat_v p1 p2
  = rbind (load p1) (fun im1 => rbind (load p2) (fun im2 => get_concat_v im1 im2)).
Proof.
  unfold concat_v, get_concat_v, paste_loading.
  rewrite Image_new_ok by lia. cbn [rbind].
  destruct (load p1) as [im1|e] eqn:H1; cbn [rbind]; [|reflexivity].
  destruct (load p2) as [im2|e] eqn:H2; cbn [rbind]; [|reflexivity].
  destruct (load_header _ H1) as (_ & <- & <-).
  destruct (load_header _ H2) as (_ & _ & <-).
  rewrite Image_new_ok by lia. reflexivity.
Qed.

(** On rasters they are the concatenations of rasters. *)
Lemma concat_loaded (im1 im2 : Img) :
  concat_h (Loaded im1) (Loaded im2) = get_concat_h im1 im2
  /\ concat_v (Loaded im1) (Loaded im2) = get_concat_v im1 im2.
Proof. rewrite concat_h_load, concat_v_load. split; reflexivity. Qed.

(** A concatenation returns exactly when both images load. *)
Lemma concat_h_loads (p1 p2 : Pic) :
  is_ok (concat_h p1 p2) = loads p1 && loads p2.
Proof.
  rewrite concat_h_load. unfold loads.
  destruct (load p1) as [im1|]; cbn [rbind is_ok andb]; [|reflexivity].
  destruct (load p2) as [im2|]; cbn [rbind is_ok andb]; [|reflexivity].
  destruct (get_concat_h_spec im1 im2) as (r & -> & _). reflexivity.
Qed.

Lemma concat_v_loads (p1 p2 : Pic) :
  is_ok (concat_v p1 p2) = loads p1 && loads p2.
Proof.
  rewrite concat_v_load. unfold loads.
  destruct (load p1) as [im1|]; cbn [rbind is_ok andb]; [|reflexivity].
  destruct (load p2) as [im2|]; cbn [rbind is_ok andb]; [|reflexivity].
  destruct (get_concat_v_spec im1 im2) as (r & -> & _). reflexivity.
Qed.

(** A fetch whose body decodes is one whose body is identified and whose
    pixels load. *)
Lemma fetched_opened (o : outcome) :
  fetched o = true ->
  exists r p, o = Resp r /\ Image_open_file (content r) = Ok p /\ loads p = true.
Proof.
  destruct o as [|r]; cbn [fetched]; [discriminate|].
  unfold Image_open, loads.
  destruct (Image_open_file (content r)) as [p|e] eqn:Ho; cbn [rbind is_ok];
    [|discriminate].
  intros H. exists r, p. split; [reflexivity|]. split; [exact Ho | exact H].
Qed.

Lemma fetched_of_opened (r : Response) (p : Pic) :
  Image_open_file (content r) = Ok p -> fetched (Resp r) = loads p.
Proof. intros H. unfold fetched, Image_open, loads. rewrite H. reflexivity. Qed.

Lemma not_opened_not_fetched (o : outcome) :
  opened o = false -> fetched o = false.
Proof.
  destruct o as [|r]; cbn [opened fetched]; [reflexivity|].
  unfold Image_open. destruct (Image_open_file (content r)); [discriminate|].
  reflexivity.
Qed.

(** The slice after one more tile loads when it is there: it is the tile,
    or a raster. *)
Lemma extend_loads (cur : option Pic) (p p' : Pic) :
  extend cur p = Ok p' -> loads p = true -> loads p' = true.
Proof.
  destruct cur as [c|]; cbn [extend].
  - destruct (concat_h c p); cbn [rbind]; [|discriminate].
    intros [= <-] _. reflexivity.
  - intros [= <-] H. exact H.
Qed.

Lemma extend_fails (cur : option Pic) (p : Pic) (e : exn) :
  extend cur p = Raise e -> loads_opt cur = true -> loads p = false.
Proof.
  destruct cur as [c|]; cbn [extend loads_opt]; [|discriminate].
  pose proof (concat_h_loads c p) as H.
  destruct (concat_h c p); cbn [rbind is_ok] in *; [discriminate|].
  intros _ Hc. rewrite Hc in H. cbn [andb] in H. symmetry. exact H.
Qed.

Lemma tile_step_eq (row column : Z) (cur : option Pic) (st : St)
  (pid : json) :
  is_dict (_metadata (self st)) = true ->
  pano_id_of (_metadata (self st)) = Ok pid ->
  let url := tile_url pid (zoom_factor (self st)) column row in
  let o := network (List.length (sent (world st))) url in
  tile_step network row cur column st
  = match o with
    | NetError => (Raise ConnectionError, requested url o st)
    | Resp r =>
        match rbind (Image_open_file (content r)) (extend cur) with
        | Ok im => (Ok (Some im), ticked (requested url o st))
        | Raise e => (Raise e, requested url o st)
        end
    end.
Proof.
  intros Hd Hp. cbv zeta.
  destruct (cached_accessors st Hd) as (Hpid & _).
  unfold tile_step, bind. rewrite Hpid, Hp.
  unfold get_self, requests_get, requested, ticked, lift, ret, pbar_update, extend.
  cbv zeta.
  destruct (network _ _) as [|r]; [reflexivity|].
  destruct cur as [c|]; destruct (Image_open_file (content r)) as [tile|e];
    cbn [rbind]; try reflexivity.
  destruct (concat_h c tile); reflexivity.
Qed.

(** One turn of the inner loop on a session whose metadata is cached: the
    request is issued; the turn raises when the request fails, when the body
    is not identified as an image, or when the slice or the tile does not
    load as it is appended. *)
Lemma tile_step_cached (row column : Z) (cur : option Pic) (st : St)
  (pid : json) :
  is_dict (_metadata (self st)) = true ->
  pano_id_of (_metadata (self st)) = Ok pid ->
  let url := tile_url pid (zoom_factor (self st)) column row in
  let o := network (List.length (sent (world st))) url in
  ((opened o = false \/ (loads_opt cur = true -> fetched o = false))
   /\ exists e, tile_step network row cur column st
                = (Raise e, requested url o st))
  \/ (opened o = true
      /\ exists r tile im,
           o = Resp r /\ Image_open_file (content r) = Ok tile
           /\ extend cur tile = Ok im
           /\ tile_step network row cur column st
              = (Ok (Some im), ticked (requested url o st))).
Proof.
  intros Hd Hp. cbv zeta. rewrite (tile_step_eq row column cur st Hd Hp).
  destruct (network _ _) as [|r].
  - left. split; [left; reflexivity|]. eexists; reflexivity.
  - cbn [opened].
    destruct (Image_open_file (content r)) as [tile|e] eqn:Ho; cbn [rbind is_ok].
    + destruct (extend cur tile) as [im|e] eqn:He.
      * right. split; [reflexivity|].
        exists r, tile, im. repeat split; assumption.
      * left. split; [|eexists; reflexivity].
        right. intros Hc. rewrite (fetched_of_opened _ Ho).
        eapply extend_fails; eassumption.
    + left. split; [left; reflexivity|]. eexists; reflexivity.
Qed.

Section Loops.

Variable s : StreetView.
Variable pid : json.
Variable nc : Z.
Hypothesis s_cached : is_dict (_metadata s) = true.
Hypothesis s_pid : pano_id_of (_metadata s) = Ok pid.
Hypothesis s_nc : num_columns_of (_metadata s) (zoom_factor s) = Ok nc.

Lemma row_loop_trace (row : Z) (columns : list Z) :
  forall cur st,
    self st = s ->
    loop_post s st (row_urls pid (zoom_factor s) row columns)
      (loads_opt cur) loads_opt
      (for_each (tile_step network row) columns cur st).
Proof.
  induction columns as [|column rest IH]; intros cur st Hs.
  - cbn. repeat split; [exact Hs|]. exists []. split; [symmetry; apply app_nil_r|].
    repeat split. intros H _. exact H.
  - cbn [for_each row_urls map]. unfold bind.
    assert (Hd : is_dict (_metadata (self st)) = true) by (rewrite Hs; exact s_cached).
    assert (Hp : pano_id_of (_metadata (self st)) = Ok pid) by (rewrite Hs; exact s_pid).
    destruct (tile_step_cached row column cur st Hd Hp)
      as [(Hf & e & ->) | (Hf & r & tile & im & Ho & Hopen & Hext & ->)];
      rewrite Hs in *.
    + repeat split; [exact Hs|]. eexists. split; [reflexivity|].
      cbn [fst map]. split; [eexists; reflexivity|].
      intros Hc. unfold all_fetched. cbn [forallb snd].
      destruct Hf as [Hf|Hf];
        [apply not_opened_not_fetched in Hf | specialize (Hf Hc)];
        rewrite Hf; reflexivity.
    + set (url := tile_url pid (zoom_factor s) column row) in *.
      set (o := network _ url) in *.
      destruct (IH (Some im) (ticked (requested url o st)) Hs)
        as (Is & If & Ip & log & Il & Ir).
      split; [exact Is|]. split; [rewrite If; reflexivity|].
      split; [rewrite Ip; reflexivity|].
      exists ((url, o) :: log). split.
      { rewrite Il. cbn. rewrite <- app_assoc. reflexivity. }
      fold (row_urls pid (zoom_factor s) row rest) in *.
      unfold all_fetched, all_opened in *.
      cbn [map fst snd forallb loads_opt] in *.
      assert (Hload : fetched o = true -> loads im = true).
      { rewrite Ho, (fetched_of_opened _ Hopen). apply (extend_loads _ _ Hext). }
      destruct (fst (for_each _ rest _ _)).
      * destruct Ir as (Iu & Ia & Ih). rewrite Iu, Ia, Hf.
        repeat split. intros _ Hall. apply andb_prop in Hall as (H1 & H2).
        apply Ih; [apply Hload; exact H1 | exact H2].
      * destruct Ir as ((rest' & Iu) & Ia). split.
        -- exists rest'. rewrite Iu. reflexivity.
        -- intros _. destruct (fetched o) eqn:Hfo; [|reflexivity].
           cbn [andb]. apply Ia. apply Hload. reflexivity.
Qed.

(** The start of a row returns exactly when the composite and the slice it
    stacks load, and what it leaves loads. *)
Lemma merged_loads (acc : option Pic * option Pic) :
  both_load acc = true ->
  exists acc', merged acc = Ok acc' /\ both_load acc' = true.
Proof.
  unfold both_load, merged.
  destruct acc as [[img|] [cur|]]; cbn [fst snd loads_opt]; intros H.
  - apply andb_prop in H as (H1 & H2).
    pose proof (concat_v_loads img cur) as Hv. rewrite H1, H2 in Hv.
    destruct (concat_v img cur); [|discriminate].
    eexists. split; reflexivity.
  - eexists. split; [reflexivity|exact H].
  - eexists. split; [reflexivity|]. cbn [fst snd loads_opt andb] in *.
    rewrite H. reflexivity.
  - eexists. split; reflexivity.
Qed.

Lemma row_step_cached (acc : option Pic * option Pic) (row : Z) (st : St) :
  self st = s ->
  row_step network acc row st
  = match merged acc with
    | Ok (IMAGE, cur) =>
        match for_each (tile_step network row) (range nc) cur st with
        | (Ok cur', st') => (Ok (IMAGE, cur'), st')
        | (Raise e, st') => (Raise e, st')
        end
    | Raise e => (Raise e, st)
    end.
Proof.
  intros Hs.
  assert (Hd : is_dict (_metadata (self st)) = true) by (rewrite Hs; exact s_cached).
  destruct (cached_accessors st Hd) as (_ & _ & Hc).
  rewrite Hs, s_nc in Hc.
  unfold row_step, merged.
  destruct acc as [[img|] [cur|]]; cbn [fst snd]; unfold bind, ret, lift;
    try destruct (concat_v img cur); cbn [rbind];
    rewrite ?Hc; try reflexivity;
    destruct (for_each _ _ _ _) as [[?|?] ?]; reflexivity.
Qed.

Lemma rows_loop_trace (rows : list Z) :
  forall acc st,
    self st = s ->
    loop_post s st (grid_urls pid (zoom_factor s) rows (range nc))
      (both_load acc) both_load
      (for_each (row_step network) rows acc st).
Proof.
  induction rows as [|row rest IH]; intros acc st Hs.
  - cbn. repeat split; [exact Hs|]. exists []. split; [symmetry; apply app_nil_r|].
    repeat split. intros H _. exact H.
  - cbn [for_each grid_urls flat_map]. unfold bind.
    rewrite row_step_cached by exact Hs.
    pose proof (merged_loads acc) as Hm.
    destruct (merged acc) as [[IMAGE cur]|e].
    2:{ repeat split; [exact Hs|]. exists []. split; [symmetry; apply app_nil_r|].
        cbn [fst map]. split; [eexists; reflexivity|].
        intros H. destruct (Hm H) as (? & [=] & _). }
    assert (Hacc : both_load acc = true ->
                   loads_opt IMAGE = true /\ loads_opt cur = true).
    { intros H. destruct (Hm H) as (acc' & [= <-] & H').
      apply andb_prop in H'. exact H'. }
    clear Hm.
    destruct (row_loop_trace row (range nc) cur st Hs)
      as (Is & If & Ip & log & Il & Ir).
    destruct (for_each (tile_step network row) (range nc) cur st)
      as [[cur'|e] st1]; cbn [fst snd] in *.
    + destruct Ir as (Iu & Ia & Ih).
      destruct (IH (IMAGE, cur') st1 Is) as (Js & Jf & Jp & log2 & Jl & Jr).
      split; [exact Js|]. split; [congruence|]. split; [congruence|].
      exists (log ++ log2)%list. split.
      { rewrite Jl, Il. symmetry. apply app_assoc. }
      fold (grid_urls pid (zoom_factor s) rest (range nc)) in *.
      unfold all_fetched, all_opened in *.
      assert (Hnext : both_load acc = true ->
                      forallb (fun entry => fetched (snd entry)) log = true ->
                      both_load (IMAGE, cur') = true).
      { intros H Hall. destruct (Hacc H) as (H1 & H2).
        unfold both_load. cbn [fst snd]. rewrite H1, (Ih H2 Hall). reflexivity. }
      destruct (fst (for_each _ rest _ _)).
      * destruct Jr as (Ju & Ja & Jh).
        rewrite map_app, !forallb_app, Iu, Ju, Ia, Ja. repeat split.
        intros H Hall. apply andb_prop in Hall as (H1 & H2).
        apply Jh; [apply Hnext; assumption | exact H2].
      * destruct Jr as ((rest' & Ju) & Ja). split.
        -- exists rest'. rewrite map_app, Iu, Ju, <- app_assoc. reflexivity.
        -- intros H. rewrite forallb_app.
           destruct (forallb (fun entry => fetched (snd entry)) log) eqn:Hall;
             [|reflexivity].
           cbn [andb]. apply Ja. apply Hnext; [exact H | reflexivity].
    + split; [exact Is|]. split; [exact If|]. split; [exact Ip|].
      exists log. split; [exact Il|].
      destruct Ir as ((rest' & Iu) & Ia). split.
      * eexists. rewrite Iu, <- app_assoc. reflexivity.
      * intros H. apply Ia. apply (Hacc H).
Qed.

(** *** Rows of two tiles or more *)

(** In a row that the inner loop completes, every tile but the first was
    loaded as it was appended, and the first was loaded when the second
    was appended. *)
Lemma row_loop_loaded (row : Z) (columns : list Z) :
  forall cur st cur',
    self st = s ->
    fst (for_each (tile_step network row) columns cur st) = Ok cur' ->
    exists log,
      sent (world (snd (for_each (tile_step network row) columns cur st)))
      = (sent (world st) ++ log)%list
      /\ match cur with
         | Some c => all_fetched log = true /\ (columns <> [] -> loads c = true)
         | None =>
             match log with
             | [] => True
             | entry :: others =>
                 all_fetched others = true
                 /\ ((2 <= List.length columns)%nat -> fetched (snd entry) = true)
             end
         end.
Proof.
  induction columns as [|column rest IH]; intros cur st cur' Hs Hok.
  - exists []. split; [symmetry; apply app_nil_r|].
    destruct cur; [|exact I]. split; [reflexivity|]. intros H. contradiction.
  - cbn [for_each] in *. unfold bind in *.
    assert (Hd : is_dict (_metadata (self st)) = true) by (rewrite Hs; exact s_cached).
    assert (Hp : pano_id_of (_metadata (self st)) = Ok pid) by (rewrite Hs; exact s_pid).
    destruct (tile_step_cached row column cur st Hd Hp)
      as [(_ & e & Heq) | (_ & r & tile & im & Ho & Hopen & Hext & Heq)];
      rewrite Heq in *; [discriminate Hok|].
    set (url := tile_url pid (zoom_factor (self st)) column row) in *.
    set (o := network _ url) in *.
    destruct (IH (Some im) (ticked (requested url o st)) cur' Hs Hok)
      as (log & Il & Ia & Ic).
    exists ((url, o) :: log). split.
    { rewrite Il. cbn. rewrite <- app_assoc. reflexivity. }
    rewrite Ho in *. unfold all_fetched in *. cbn [forallb snd].
    destruct cur as [c|]; cbn [extend] in Hext.
    + pose proof (concat_h_loads c tile) as Hl.
      destruct (concat_h c tile); cbn [rbind is_ok] in *; [|discriminate].
      symmetry in Hl. apply andb_prop in Hl as (H1 & H2).
      rewrite (fetched_of_opened _ Hopen), H2, Ia. split; [reflexivity|].
      intros _. exact H1.
    + injection Hext as <-. split; [exact Ia|].
      intros Hlen. rewrite (fetched_of_opened _ Hopen). apply Ic.
      destruct rest; [cbn in Hlen; lia | discriminate].
Qed.

Lemma merged_none (acc acc' : option Pic * option Pic) :
  merged acc = Ok acc' -> snd acc' = None.
Proof.
  unfold merged. destruct acc as [[img|] [cur|]]; cbn [fst snd].
  - destruct (concat_v img cur); cbn [rbind]; [|discriminate].
    intros [= <-]. reflexivity.
  - intros [= <-]. reflexivity.
  - intros [= <-]. reflexivity.
  - intros [= <-]. reflexivity.
Qed.

(** With two columns or more, the rows that the outer loop completes hold
    only tiles that decoded. *)
Lemma rows_loop_loaded (rows : list Z) :
  2 <= nc ->
  forall acc st a,
    self st = s ->
    fst (for_each (row_step network) rows acc st) = Ok a ->
    exists log,
      sent (world (snd (for_each (row_step network) rows acc st)))
      = (sent (world st) ++ log)%list
      /\ all_fetched log = true.
Proof.
  intros Hnc. induction rows as [|row rest IH]; intros acc st a Hs Hok.
  - exists []. split; [symmetry; apply app_nil_r | reflexivity].
  - cbn [for_each] in *. unfold bind in *.
    rewrite row_step_cached in * by exact Hs.
    destruct (merged acc) as [[IMAGE cur]|e] eqn:Hm; [|discriminate Hok].
    apply merged_none in Hm. cbn [snd] in Hm. subst cur.
    pose proof (@row_loop_loaded row (range nc) None st) as Hrow.
    destruct (row_loop_trace row (range nc) None st Hs) as (Is & _).
    destruct (for_each (tile_step network row) (range nc) None st)
      as [[cur'|e] st1]; cbn [fst snd] in *; [|discriminate Hok].
    destruct (Hrow cur' Hs eq_refl) as (log1 & Il & Ia).
    destruct (IH (IMAGE, cur') st1 a Is Hok) as (log2 & Jl & Ja).
    exists (log1 ++ log2)%list. split.
    { rewrite Jl, Il. symmetry. apply app_assoc. }
    unfold all_fetched in *. rewrite forallb_app, Ja, andb_true_r.
    destruct log1 as [|entry others]; [reflexivity|].
    destruct Ia as (Ia & Ie). cbn [forallb]. rewrite Ia, Ie; [reflexivity|].
    unfold range. rewrite length_map, length_seq. lia.
Qed.

End Loops.
(** ** The whole download *)

Lemma download_unfold (path fmt : string) :
  download network path fmt
  = bind (num_rows network) (download_body network path fmt).
Proof. reflexivity. Qed.

Lemma finish_post (path fmt : string) (acc : option Pic * option Pic)
  (st : St) :
  self (snd (finish path fmt acc st)) = self st
  /\ sent (world (snd (finish path fmt acc st))) = sent (world st)
  /\ saves_at path fmt st (finish path fmt acc st).
Proof.
  unfold saves_at, finish, bind, print, raise, save, Image_save, lift.
  destruct acc as [[img|] [cur|]]; cbn;
    try (destruct (load _) as [im|]; cbn;
         [destruct (save_error path fmt im); cbn;
          [destruct (save_opened path fmt im); cbn|]|]);
    repeat split; try (eexists; reflexivity); auto.
Qed.

Lemma metadata_files (st : St) :
  files (world (snd (metadata network st))) = files (world st)
  /\ spoiled (world (snd (metadata network st))) = spoiled (world st).
Proof.
  unfold metadata, bind, get_self, ret.
  destruct (is_dict (_metadata (self st))); [split; reflexivity|].
  unfold meta_url, bind, get_self, set_meta_url, print, ret, requests_get.
  destruct (_meta_url (self st)); cbn;
    destruct (network _ _); cbn; unfold lift, set_metadata;
    try destruct (json_loads _); split; reflexivity.
Qed.

(** An accessor that returns a value leaves a state on which the session is
    resolved: a JSON object is cached, and the accessors return the same
    values again without touching the state. *)
Lemma resolved_after (a : accessor) (st st1 : St) (v : value) :
  read network a st = (Ok v, st1) ->
  is_dict (_metadata (self st1)) = true
  /\ zoom_factor (self st1) = zoom_factor (self st)
  /\ files (world st1) = files (world st)
  /\ value_of a (_metadata (self st1)) (zoom_factor (self st1)) = Ok v.
Proof.
  intros Hr. rewrite read_run in Hr.
  pose proof (zoom_after_metadata st) as Hz.
  destruct (metadata_files st) as (Hf & _).
  destruct (metadata network st) as [[md|e] st'] eqn:Hm;
    cbn [fst snd rbind] in *; [|discriminate].
  injection Hr as Hv <-.
  apply metadata_returns_cache in Hm. subst md.
  rewrite Hz. repeat split; try assumption.
  eapply value_of_ok_dict; eassumption.
Qed.

Lemma read_spoiled (a : accessor) (st : St) :
  spoiled (world (snd (read network a st))) = spoiled (world st).
Proof. rewrite read_run. cbn [snd]. apply metadata_files. Qed.

Lemma read_int (st st1 : St) (n : Z) :
  (num_rows network st = (Ok n, st1) ->
   read network Num_rows st = (Ok (VInt n), st1))
  /\ (num_columns network st = (Ok n, st1) ->
      read network Num_columns st = (Ok (VInt n), st1)).
Proof.
  split; intros H; unfold read, bind, ret; rewrite H; reflexivity.
Qed.

Lemma read_json (st st1 : St) (j : json) :
  pano_id network st = (Ok j, st1) ->
  read network Pano_id st = (Ok (VJson j), st1).
Proof. intros H; unfold read, bind, ret; rewrite H; reflexivity. Qed.

Lemma value_of_int (md : json) (zoom n : Z) :
  (value_of Num_rows md zoom = Ok (VInt n) -> num_rows_of md zoom = Ok n)
  /\ (value_of Num_columns md zoom = Ok (VInt n) ->
      num_columns_of md zoom = Ok n).
Proof.
  cbn [value_of].
  split; intros H;
    [destruct (num_rows_of md zoom) | destruct (num_columns_of md zoom)];
    cbn [rbind] in H; congruence.
Qed.

Lemma value_of_json (md : json) (zoom : Z) (j : json) :
  value_of Pano_id md zoom = Ok (VJson j) -> pano_id_of md = Ok j.
Proof.
  cbn [value_of]. destruct (pano_id_of md); cbn [rbind]; congruence.
Qed.

Lemma download_body_cached (path fmt : string) (st : St) (nr nc : Z) :
  is_dict (_metadata (self st)) = true ->
  num_rows_of (_metadata (self st)) (zoom_factor (self st)) = Ok nr ->
  num_columns_of (_metadata (self st)) (zoom_factor (self st)) = Ok nc ->
  download_body network path fmt nr st
  = match for_each (row_step network) (range nr) (None, None)
            (with_world (log_pbar (0, nr * nc) (world st)) st) with
    | (Ok acc, st') => finish path fmt acc st'
    | (Raise e, st') => (Raise e, st')
    end.
Proof.
  intros Hd Hr Hc.
  destruct (cached_accessors st Hd) as (_ & _ & Hnc).
  unfold download_body, bind. rewrite Hnc, Hc. unfold tqdm.
  set (st0 := with_world (log_pbar (0, nr * nc) (world st)) st).
  destruct (cached_accessors st0 Hd) as (_ & Hnr & _).
  rewrite Hnr. change (self st0) with (self st). rewrite Hr.
  reflexivity.
Qed.

(** *** The grid *)

Lemma grid_urls_cells (pid : json) (zoom nr nc : Z) :
  grid_urls pid zoom (range nr) (range nc)
  = map (cell_url pid zoom) (grid nr nc).
Proof.
  unfold grid_urls, grid. induction (range nr) as [|row rest IH];
    cbn [flat_map map]; [reflexivity|].
  rewrite map_app, IH. f_equal.
  unfold row_urls. rewrite map_map. reflexivity.
Qed.

Lemma length_range (n : Z) : List.length (range n) = Z.to_nat n.
Proof. unfold range. rewrite length_map, length_seq. reflexivity. Qed.

Lemma length_grid (nr nc : Z) :
  List.length (grid nr nc) = (Z.to_nat nr * Z.to_nat nc)%nat.
Proof.
  unfold grid. rewrite <- (length_range nr), <- (length_range nc).
  induction (range nr) as [|row rest IH]; cbn [flat_map List.length];
    [reflexivity|].
  rewrite length_app, length_map, IH. reflexivity.
Qed.



(** The URL of a tile, character by character: the column and the row can be
    read back from it. *)
Lemma tile_url_text (pid : json) (zoom column row : Z) :
  tile_url pid zoom column row
  = ("https://cbks2.google.com/cbk?cb_client=maps_sv.tactile&authuser=%200&hl=en&panoid="
       ++ str_of_json pid ++ "&output=tile&zoom=" ++ string_of_Z zoom
       ++ "&x=" ++ string_of_Z column ++ "&y=" ++ string_of_Z row)%string.
Proof. reflexivity. Qed.





Lemma prefix_firstn {A} (l rest full : list A) :
  full = (l ++ rest)%list -> l = firstn (List.length l) full.
Proof.
  intros ->. rewrite firstn_app, Nat.sub_diag, firstn_all. cbn [firstn].
  symmetry. apply app_nil_r.
Qed.

(** *** Tile requests need a resolved session *)

Section NoPanoId.

Variable s : StreetView.
Variable nc : Z.
Variable e : exn.
Hypothesis s_cached : is_dict (_metadata s) = true.
Hypothesis s_nc : num_columns_of (_metadata s) (zoom_factor s) = Ok nc.
Hypothesis s_nopid : pano_id_of (_metadata s) = Raise e.



End NoPanoId.


(** *** The trace of a download *)

(** Once the first statement of [download] has resolved the session, either
    the loops complete: every tile was requested in row-major order and its
    body identified as an image (and decoded, when the grid has two columns
    or more), and the save is attempted; or the requests stop where a loop
    raises, some body does not decode, the download raises and no file is
    touched. *)
Lemma download_trace (path fmt : string) (st st1 : St) (nr nc : Z)
  (pid : json) :
  num_rows network st = (Ok nr, st1) ->
  num_columns network st = (Ok nc, st1) ->
  pano_id network st = (Ok pid, st1) ->
  let res := download network path fmt st in
  let expected := map (cell_url pid (zoom_factor (self st))) (grid nr nc) in
  let log := tile_log network path fmt st in
  (map fst log = expected
   /\ all_opened log = true
   /\ (2 <= nc -> all_fetched log = true)
   /\ saves_at path fmt st res)
  \/ ((exists rest, expected = (map fst log ++ rest)%list)
      /\ all_fetched log = false
      /\ (exists e, fst res = Raise e)
      /\ files (world (snd res)) = files (world st)
      /\ spoiled (world (snd res)) = spoiled (world st)).
Proof.
  intros Hnr Hnc Hpid. cbv zeta.
  destruct (read_int st st1 nr) as (Rr & _). specialize (Rr Hnr).
  destruct (read_int st st1 nc) as (_ & Rc). specialize (Rc Hnc).
  pose proof (@read_json st st1 pid Hpid) as Rp.
  pose proof (read_spoiled Num_rows st) as Hsp. rewrite Rr in Hsp. cbn [snd] in Hsp.
  apply resolved_after in Rr. destruct Rr as (Hd & Hz & Hf & Vr).
  apply resolved_after in Rc. destruct Rc as (_ & _ & _ & Vc).
  apply resolved_after in Rp. destruct Rp as (_ & _ & _ & Vp).
  apply value_of_int in Vr. apply value_of_int in Vc. apply value_of_json in Vp.
  set (st0 := with_world (log_pbar (0, nr * nc) (world st1)) st1).
  assert (Hdl : download network path fmt st
                = match for_each (row_step network) (range nr) (None, None) st0 with
                  | (Ok acc, st') => finish path fmt acc st'
                  | (Raise e, st') => (Raise e, st')
                  end).
  { rewrite download_unfold. unfold bind. rewrite Hnr.
    apply download_body_cached; assumption. }
  unfold tile_log. rewrite Hdl, Hnr. cbn [snd]. clear Hdl.
  destruct (@rows_loop_trace (self st1) pid nc Hd Vp Vc (range nr)
              (None, None) st0 eq_refl) as (Ls & Lf & Lp & log & Ll & Lr).
  pose proof (fun H => @rows_loop_loaded (self st1) pid nc Hd Vp Vc (range nr) H
                         (None, None) st0) as Lall.
  rewrite <- grid_urls_cells, <- Hz.
  change (sent (world st0)) with (sent (world st1)) in *.
  change (files (world st0)) with (files (world st1)) in Lf.
  change (spoiled (world st0)) with (spoiled (world st1)) in Lp.
  destruct (for_each (row_step network) (range nr) (None, None) st0)
    as [[acc|e] st2]; cbn [fst snd] in *.
  - left. destruct (finish_post path fmt acc st2) as (_ & Fs & Ff).
    rewrite Fs, Ll, skipn_app, skipn_all, Nat.sub_diag. cbn [skipn app].
    destruct Lr as (Lu & La & _). split; [exact Lu|]. split; [exact La|].
    split.
    + intros H2. destruct (Lall H2 acc eq_refl eq_refl) as (log' & Hl' & Ha').
      rewrite Ll in Hl'. apply app_inv_head in Hl'. subst log'. exact Ha'.
    + unfold saves_at in *. rewrite Lf, Lp, Hf, Hsp in Ff. exact Ff.
  - right. rewrite Ll, skipn_app, skipn_all, Nat.sub_diag. cbn [skipn app].
    destruct Lr as (Lu & La).
    split; [exact Lu|]. split; [apply La; reflexivity|].
    split; [exists e; reflexivity|]. split; congruence.
Qed.

(** *** The status of a response is not looked at *)
















Section Statuses.

(** A second network, whose answers have the bodies of those of the first. *)
Variable network' : nat -> string -> outcome.
Hypothesis same_bodies : forall n url, body (network n url) = body (network' n url).













End Statuses.

(** C6, as the code has it.  [download] issues its tile requests in
    row-major order, the row in the outer loop and the column in the inner
    one, each for the session's [pano_id] and [zoom_factor] with [x] the
    column and [y] the row, counted from 0.  The URLs requested are always
    an initial part of that list over [range(num_rows)] by
    [range(num_columns)], which has [num_rows * num_columns] entries when
    neither count is negative; they are all of it whenever every tile is
    fetched and decodes, and whenever [download] returns. *)
Theorem download_requests_row_major (path fmt : string) (st st1 : St)
  (nr nc : Z) (pid : json) :
  num_rows network st = (Ok nr, st1) ->
  num_columns network st = (Ok nc, st1) ->
  pano_id network st = (Ok pid, st1) ->
  let expected :=
    map (fun cell =>
           ("https://cbks2.google.com/cbk?cb_client=maps_sv.tactile&authuser=%200&hl=en&panoid="
              ++ str_of_json pid
              ++ "&output=tile&zoom=" ++ string_of_Z (zoom_factor (self st))
              ++ "&x=" ++ string_of_Z (snd cell)
              ++ "&y=" ++ string_of_Z (fst cell))%string)
        (grid nr nc) in
  let log := tile_log network path fmt st in
  List.length expected = (Z.to_nat nr * Z.to_nat nc)%nat
  /\ (0 <= nr -> 0 <= nc -> Z.of_nat (List.length expected) = nr * nc)
  /\ (exists k, map fst log = firstn k expected)
  /\ (all_fetched log = true -> map fst log = expected)
  /\ (is_ok (fst (download network path fmt st)) = true ->
      map fst log = expected).
Proof.
  intros Hnr Hnc Hpid. cbv zeta.
  change (map _ (grid nr nc))
    with (map (cell_url pid (zoom_factor (self st))) (grid nr nc)).
  split; [rewrite length_map; apply length_grid|].
  split; [intros H1 H2; rewrite length_map, length_grid; lia|].
  destruct (@download_trace path fmt st st1 nr nc pid Hnr Hnc Hpid)
    as [(Hu & _) | ((rest & Hu) & Ha & (e & He) & _)].
  - rewrite Hu. repeat split; auto.
    exists (List.length (map (cell_url pid (zoom_factor (self st))) (grid nr nc))).
    symmetry. apply firstn_all.
  - split; [eexists; eapply prefix_firstn; exact Hu|].
    split; [congruence|]. rewrite He. discriminate.
Qed.



(** ** The size of the composite *)

Section Uniform.

Variable s : StreetView.
Variable pid : json.
Variable nc : Z.
Variables tw th : N.
Hypothesis s_cached : is_dict (_metadata s) = true.
Hypothesis s_pid : pano_id_of (_metadata s) = Ok pid.
Hypothesis s_nc : num_columns_of (_metadata s) (zoom_factor s) = Ok nc.
Hypothesis nc_pos : 1 <= nc.
(** Every tile request is answered with a body that decodes to an image of
    [tw] by [th]. *)
Hypothesis uniform : forall n column row,
  exists r tile,
    network n (tile_url pid (zoom_factor s) column row) = Resp r
    /\ Image_open (content r) = Ok tile
    /\ width tile = tw /\ height tile = th.







End Uniform.



(** * Further properties of the code *)

(** ** [meta_url] *)

(** X1. [meta_url] issues no request and writes no file: it returns the
    cached URL, or builds it from latitude and longitude and caches it, and
    prints it on every access; a second access returns the same URL. *)
Theorem meta_url_stable (st : St) :
  fst (meta_url st) = Ok (url_of (self st))
  /\ _meta_url (self (snd (meta_url st))) = Some (url_of (self st))
  /\ stdout (world (snd (meta_url st)))
     = (stdout (world st) ++ [url_of (self st)])%list
  /\ sent (world (snd (meta_url st))) = sent (world st)
  /\ files (world (snd (meta_url st))) = files (world st)
  /\ fst (meta_url (snd (meta_url st))) = Ok (url_of (self st)).
Proof.
  unfold meta_url, url_of, bind, get_self, set_meta_url, print, ret.
  destruct (_meta_url (self st)) as [u|] eqn:Hu; cbn; rewrite ?Hu; cbn;
    repeat split; reflexivity.
Qed.

(** ** [metadata] *)

(** X2. The first evaluation of [metadata] on a session with no JSON object
    cached issues exactly one request, to the URL of the session; when the
    body parses, what it parsed to is returned and stored in [_metadata],
    whether or not it is a JSON object. *)
Theorem metadata_first_fetch (st : St) (r : Response) (j : json) :
  is_dict (_metadata (self st)) = false ->
  network (List.length (sent (world st))) (url_of (self st)) = Resp r ->
  json_loads (content r) = Ok j ->
  fst (metadata network st) = Ok j
  /\ _metadata (self (snd (metadata network st))) = j
  /\ _meta_url (self (snd (metadata network st))) = Some (url_of (self st))
  /\ sent (world (snd (metadata network st)))
     = (sent (world st) ++ [(url_of (self st), Resp r)])%list.
Proof.
  intros Hd Hn Hj.
  destruct (metadata_uncached st Hd) as (Hs & Hu & Ho).
  rewrite Hn in *. rewrite Hj in Ho. destruct Ho as (Hr & Hm).
  repeat split; assumption.
Qed.

(** X3. When the metadata request fails, or its body does not parse, the
    error propagates, [_metadata] keeps what it held, and the one request
    issued stays in the log: nothing is retried. *)
Theorem metadata_failure_keeps_cache (st : St) :
  is_dict (_metadata (self st)) = false ->
  (network (List.length (sent (world st))) (url_of (self st)) = NetError
   \/ exists r e,
        network (List.length (sent (world st))) (url_of (self st)) = Resp r
        /\ json_loads (content r) = Raise e) ->
  is_ok (fst (metadata network st)) = false
  /\ _metadata (self (snd (metadata network st))) = _metadata (self st)
  /\ List.length (sent (world (snd (metadata network st))))
     = S (List.length (sent (world st))).
Proof.
  intros Hd Hfail.
  destruct (metadata_uncached st Hd) as (Hs & _ & Ho).
  rewrite Hs, length_app. cbn [List.length].
  destruct Hfail as [Hn | (r & e & Hn & Hj)]; rewrite Hn in Ho.
  - destruct Ho as (-> & ->). repeat split. lia.
  - rewrite Hj in Ho. destruct Ho as (-> & ->). repeat split. lia.
Qed.

(** ** Missing keys *)

(** X4. On a cached metadata object without the key [Data] (the empty
    object, for one), every size accessor raises [KeyError] and leaves the
    state as it is. *)
Theorem sizes_need_Data (st : St) (kvs : list (string * json)) :
  _metadata (self st) = JDict kvs ->
  assoc "Data" kvs = None ->
  original_width network st = (Raise KeyError, st)
  /\ original_height network st = (Raise KeyError, st)
  /\ output_width network st = (Raise KeyError, st)
  /\ output_height network st = (Raise KeyError, st)
  /\ num_rows network st = (Raise KeyError, st)
  /\ num_columns network st = (Raise KeyError, st).
Proof.
  intros Hmd Hdata.
  assert (Hd : is_dict (_metadata (self st)) = true) by (rewrite Hmd; reflexivity).
  destruct (accessor_run st) as (_ & Aw & Ah & Aow & Aoh & Anr & Anc).
  cbv zeta in *. rewrite metadata_cached in * by exact Hd.
  cbn [fst snd rbind] in *.
  rewrite Aw, Ah, Aow, Aoh, Anr, Anc.
  unfold num_rows_of, num_columns_of, output_width_of, output_height_of,
    original_width_of, original_height_of.
  rewrite Hmd. cbn [getitem]. rewrite Hdata. cbn [rbind]. repeat split.
Qed.

(** X5. [pano_id] on a cached metadata object raises [KeyError] when the key
    [Links] is missing and [IndexError] when its list is empty, and returns
    the [panoId] of the first link otherwise; the other links are never
    looked at. *)
Theorem pano_id_first_link (st : St) (kvs : list (string * json)) :
  _metadata (self st) = JDict kvs ->
  (assoc "Links" kvs = None -> pano_id network st = (Raise KeyError, st))
  /\ (assoc "Links" kvs = Some (JList []) ->
      pano_id network st = (Raise IndexError, st))
  /\ (forall link links,
        assoc "Links" kvs = Some (JList (link :: links)) ->
        pano_id network st = (getitem link "panoId", st)).
Proof.
  intros Hmd.
  assert (Hd : is_dict (_metadata (self st)) = true) by (rewrite Hmd; reflexivity).
  destruct (cached_accessors st Hd) as (-> & _).
  unfold pano_id_of. rewrite Hmd. cbn [getitem].
  repeat split; intros; rewrite H; reflexivity.
Qed.

(** ** The grid and the output *)

Lemma cdiv_bounds (a b : Z) :
  0 < b -> b * (cdiv a b - 1) < a <= b * cdiv a b.
Proof.
  intros Hb. unfold cdiv.
  pose proof (Z.div_mod (a + b - 1) b ltac:(lia)) as Hdm.
  pose proof (Z.mod_pos_bound (a + b - 1) b Hb) as Hr.
  nia.
Qed.

(** X6. The grid covers the output image and no more: for an output width
    [ow] with [0 <= ow < 2^53], [num_columns] columns of 512 pixels reach
    [ow] and one column fewer would not; likewise for the rows and the
    output height, the count at zoom factor 2 being one more than that. *)
Theorem grid_covers_output (st st1 st2 : St) (ow oh : Z) :
  output_width network st = (Ok ow, st1) ->
  output_height network st = (Ok oh, st2) ->
  0 <= ow < 2 ^ 53 ->
  0 <= oh < 2 ^ 53 ->
  exists nc nr,
    num_columns network st = (Ok nc, st1)
    /\ num_rows network st = (Ok nr, st2)
    /\ 512 * (nc - 1) < ow <= 512 * nc
    /\ (zoom_factor (self st) <> 2 -> 512 * (nr - 1) < oh <= 512 * nr)
    /\ (zoom_factor (self st) = 2 -> 512 * (nr - 2) < oh <= 512 * (nr - 1)).
Proof.
  intros Hw Hh Bw Bh.
  destruct (accessor_run st) as (_ & _ & _ & Aow & Aoh & Anr & Anc).
  cbv zeta in *. rewrite Aow in Hw. rewrite Aoh in Hh. rewrite Anr, Anc.
  destruct (metadata network st) as [[md|e] st']; cbn [fst snd rbind] in *;
    [|discriminate].
  injection Hw as Hw <-. injection Hh as Hh <-.
  unfold num_columns_of, num_rows_of. rewrite Hw, Hh. cbn [rbind].
  rewrite !tiles_exact by assumption. cbn [rbind].
  pose proof (@cdiv_bounds ow 512 ltac:(lia)) as Cw.
  pose proof (@cdiv_bounds oh 512 ltac:(lia)) as Ch.
  eexists. eexists. split; [reflexivity|]. split; [reflexivity|].
  split; [exact Cw|].
  destruct (Z.eqb_spec (zoom_factor (self st)) 2); split; intros; lia.
Qed.

Lemma div_pow2_mono (W j k : Z) :
  0 <= W -> 0 <= k <= j -> W / 2 ^ j <= W / 2 ^ k.
Proof.
  intros HW Hk.
  assert (0 < 2 ^ k) by (apply Z.pow_pos_nonneg; lia).
  apply Z.div_le_compat_l; [lia|]. split; [lia|].
  apply Z.pow_le_mono_r; lia.
Qed.

Lemma cdiv_mono (a b : Z) : a <= b -> cdiv a 512 <= cdiv b 512.
Proof. intros H. unfold cdiv. apply Z.div_le_mono; lia. Qed.

(** X7. A higher zoom factor never gives a smaller output: for two sessions
    on the same cached metadata with zoom factors [z <= z'] between 1 and 5,
    and an image width [W] and height [H] with [0 <= W, H < 2^53], the output
    width, the output height and the number of columns at [z] are at most
    those at [z']. *)
Theorem output_grows_with_zoom (st st' : St) (W H : Z) :
  is_dict (_metadata (self st)) = true ->
  _metadata (self st') = _metadata (self st) ->
  original_width_of (_metadata (self st)) = Ok W ->
  original_height_of (_metadata (self st)) = Ok H ->
  0 <= W < 2 ^ 53 ->
  0 <= H < 2 ^ 53 ->
  1 <= zoom_factor (self st) <= zoom_factor (self st') ->
  zoom_factor (self st') <= 5 ->
  exists w w' h h' c c',
    output_width network st = (Ok w, st)
    /\ output_width network st' = (Ok w', st')
    /\ output_height network st = (Ok h, st)
    /\ output_height network st' = (Ok h', st')
    /\ num_columns network st = (Ok c, st)
    /\ num_columns network st' = (Ok c', st')
    /\ w <= w' /\ h <= h' /\ c <= c'.
Proof.
  intros Hd Hmd HW HH BW BH Hz Hz5.
  assert (Hd' : is_dict (_metadata (self st')) = true) by (rewrite Hmd; exact Hd).
  destruct (accessor_run st) as (_ & _ & _ & Aow & Aoh & _ & Anc).
  destruct (accessor_run st') as (_ & _ & _ & Aow' & Aoh' & _ & Anc').
  cbv zeta in *.
  rewrite metadata_cached in * by assumption.
  cbn [fst snd rbind] in *.
  rewrite Aow, Aoh, Anc, Aow', Aoh', Anc', Hmd.
  unfold num_columns_of, output_width_of, output_height_of.
  rewrite HW, HH. cbn [rbind].
  rewrite !scale_exact by lia. cbn [rbind].
  rewrite !tiles_exact by (apply scaled_bound; lia).
  do 6 eexists. repeat (split; [reflexivity|]).
  assert (Lw : W / 2 ^ (5 - zoom_factor (self st))
               <= W / 2 ^ (5 - zoom_factor (self st')))
    by (apply div_pow2_mono; lia).
  split; [exact Lw|]. split; [apply div_pow2_mono; lia|].
  apply cdiv_mono. exact Lw.
Qed.

(** ** Concatenation of images that fit *)

(** X8. When the heights agree, [get_concat_h] returns an RGB image as wide
    as both images together and as high as each, with the two side by side,
    nothing lost and nothing added: every pixel of the result is the pixel
    of the first image at that place, or of the second image moved right by
    the width of the first, converted to RGB.  Likewise [get_concat_v] when
    the widths agree. *)
Theorem concat_keeps_both (im1 im2 im3 im4 : Img) :
  height im1 = height im2 ->
  width im3 = width im4 ->
  (exists r,
     get_concat_h im1 im2 = Ok r
     /\ mode r = "RGB"
     /\ width r = (width im1 + width im2)%N
     /\ height r = height im1 /\ height r = height im2
     /\ forall x y, (x < width r)%N -> (y < height r)%N ->
          getpixel r x y
          = if (x <? width im1)%N
            then convert (mode im1) "RGB" (getpixel im1 x y)
            else convert (mode im2) "RGB" (getpixel im2 (x - width im1) y))
  /\ (exists r,
        get_concat_v im3 im4 = Ok r
        /\ mode r = "RGB"
        /\ width r = width im3 /\ width r = width im4
        /\ height r = (height im3 + height im4)%N
        /\ forall x y, (x < width r)%N -> (y < height r)%N ->
             getpixel r x y
             = if (y <? height im3)%N
               then convert (mode im3) "RGB" (getpixel im3 x y)
               else convert (mode im4) "RGB" (getpixel im4 x (y - height im3))).
Proof.
  intros Hh Hw. split.
  - destruct (get_concat_h_spec im1 im2) as (r & Hr & Hm & Rw & Rh & P1 & P2 & _).
    exists r. split; [exact Hr|]. split; [exact Hm|]. split; [exact Rw|].
    split; [exact Rh|]. split; [congruence|]. intros x y Hx Hy.
    destruct (N.ltb_spec x (width im1)).
    + apply P1; lia.
    + apply P2; lia.
  - destruct (get_concat_v_spec im3 im4) as (r & Hr & Hm & Rw & Rh & P1 & P2 & _).
    exists r. split; [exact Hr|]. split; [exact Hm|]. split; [exact Rw|].
    split; [congruence|]. split; [exact Rh|]. intros x y Hx Hy.
    destruct (N.ltb_spec y (height im3)).
    + apply P1; lia.
    + apply P2; lia.
Qed.

(** ** The empty grid *)

Lemma range_empty (n : Z) : n <= 0 -> range n = [].
Proof.
  intros Hn. unfold range. replace (Z.to_nat n) with 0%nat by lia. reflexivity.
Qed.

Lemma rows_loop_empty (s : StreetView) (nc : Z) (rows : list Z) :
  is_dict (_metadata s) = true ->
  num_columns_of (_metadata s) (zoom_factor s) = Ok nc ->
  nc <= 0 ->
  forall st,
    self st = s ->
    for_each (row_step network) rows (None, None) st = (Ok (None, None), st).
Proof.
  intros Hd Hc Hnc. induction rows as [|row rest IH]; intros st Hs;
    cbn [for_each]; [reflexivity|].
  unfold bind. rewrite (@row_step_cached s nc Hd Hc (None, None) row st Hs).
  unfold merged. cbn [fst snd]. rewrite range_empty by exact Hnc.
  cbn [for_each]. unfold ret. apply IH. exact Hs.
Qed.

(** X9. On a grid without a row, or without a column, [download] issues no
    tile request, prints that it is saving and then raises [AttributeError]:
    there is no image to save, and no file is written. *)
Theorem download_empty_grid (path fmt : string) (st st1 : St) (nr nc : Z) :
  num_rows network st = (Ok nr, st1) ->
  num_columns network st = (Ok nc, st1) ->
  nr <= 0 \/ nc <= 0 ->
  fst (download network path fmt st) = Raise AttributeError
  /\ tile_log network path fmt st = []
  /\ files (world (snd (download network path fmt st))) = files (world st)
  /\ stdout (world (snd (download network path fmt st)))
     = (stdout (world st1) ++ [("Saving image to " ++ path)%string])%list.
Proof.
  intros Hnr Hnc Hempty.
  destruct (read_int st st1 nr) as (Rr & _). specialize (Rr Hnr).
  destruct (read_int st st1 nc) as (_ & Rc). specialize (Rc Hnc).
  apply resolved_after in Rr. destruct Rr as (Hd & Hz & Hf & Vr).
  apply resolved_after in Rc. destruct Rc as (_ & _ & _ & Vc).
  apply value_of_int in Vr. apply value_of_int in Vc.
  set (st0 := with_world (log_pbar (0, nr * nc) (world st1)) st1).
  assert (Hloop : for_each (row_step network) (range nr) (None, None) st0
                  = (Ok (None, None), st0)).
  { destruct Hempty as [Hr0 | Hc0].
    - rewrite range_empty by exact Hr0. reflexivity.
    - apply (@rows_loop_empty (self st1) nc (range nr) Hd Vc Hc0). reflexivity. }
  assert (Hdl : download network path fmt st
                = finish path fmt (None, None) st0).
  { rewrite download_unfold. unfold bind. rewrite Hnr.
    rewrite (@download_body_cached path fmt st1 nr nc Hd Vr Vc).
    fold st0. rewrite Hloop. reflexivity. }
  unfold tile_log. rewrite Hdl, Hnr. cbn [snd].
  unfold finish, bind, print, raise. cbn.
  rewrite skipn_all. repeat split. exact Hf.
Qed.

(** ** Requests of a download on a resolved session *)

Lemma tiles_only_refl (st : St) : tiles_only st st.
Proof.
  intros _. split; [reflexivity|]. exists []. split; [|constructor].
  symmetry. apply app_nil_r.
Qed.

Lemma tiles_only_trans (st1 st2 st3 : St) :
  tiles_only st1 st2 -> tiles_only st2 st3 -> tiles_only st1 st3.
Proof.
  intros H12 H23 Hd.
  destruct (H12 Hd) as (S12 & l1 & L1 & F1).
  assert (Hd2 : is_dict (_metadata (self st2)) = true) by (rewrite S12; exact Hd).
  destruct (H23 Hd2) as (S23 & l2 & L2 & F2).
  split; [congruence|]. exists (l1 ++ l2)%list. split.
  - rewrite L2, L1. symmetry. apply app_assoc.
  - apply Forall_app. split; assumption.
Qed.

Lemma only_tiles_ret {A} (a : A) : only_tiles (@ret pixel A a).
Proof. intros st. apply tiles_only_refl. Qed.

Lemma only_tiles_raise {A} (e : exn) : only_tiles (@raise pixel A e).
Proof. intros st. apply tiles_only_refl. Qed.

Lemma only_tiles_lift {A} (r : result A) : only_tiles (@lift pixel A r).
Proof. intros st. apply tiles_only_refl. Qed.

Lemma only_tiles_get_self : only_tiles (@get_self pixel).
Proof. intros st. apply tiles_only_refl. Qed.

Lemma only_tiles_bind {A B} (m : M pixel A) (k : A -> M pixel B) :
  only_tiles m -> (forall a, only_tiles (k a)) -> only_tiles (bind m k).
Proof.
  intros Hm Hk st. unfold bind. specialize (Hm st).
  destruct (m st) as [[a|e] st1]; cbn [snd] in *.
  - eapply tiles_only_trans; [exact Hm | apply Hk].
  - exact Hm.
Qed.

Lemma only_tiles_for_each {A S} (body : S -> A -> M pixel S) (xs : list A) :
  (forall acc x, only_tiles (body acc x)) ->
  forall acc, only_tiles (for_each body xs acc).
Proof.
  intros Hbody. induction xs as [|x rest IH]; intros acc; cbn [for_each].
  - apply only_tiles_ret.
  - apply only_tiles_bind; [apply Hbody | exact IH].
Qed.

Ltac same_requests :=
  intros st _; cbn; split; [reflexivity|];
  exists []; split; [symmetry; apply app_nil_r | constructor].

Lemma only_tiles_print (line : string) : only_tiles (@print pixel line).
Proof. same_requests. Qed.

Lemma only_tiles_tqdm (n : Z) : only_tiles (@tqdm pixel n).
Proof. same_requests. Qed.

Lemma only_tiles_pbar_update : only_tiles (@pbar_update pixel).
Proof. same_requests. Qed.

Lemma only_tiles_Image_save (im : Img) (path fmt : string) :
  only_tiles (Image_save im path fmt).
Proof.
  intros st. unfold Image_save.
  destruct (save_error path fmt im); [destruct (save_opened path fmt im)|];
    revert st; same_requests.
Qed.

Lemma only_tiles_save (p : Pic) (path fmt : string) :
  only_tiles (save p path fmt).
Proof.
  unfold save. apply only_tiles_bind; [apply only_tiles_lift|].
  intros im. apply only_tiles_Image_save.
Qed.

Lemma only_tiles_requests_get (url : string) :
  metadata_url url = false ->
  only_tiles (requests_get (pixel := pixel) network url).
Proof.
  intros Hurl st _. unfold requests_get.
  destruct (network _ url); cbn; (split; [reflexivity|]);
    eexists; (split; [reflexivity|]); repeat constructor; exact Hurl.
Qed.

Lemma only_tiles_metadata : only_tiles (metadata network).
Proof.
  intros st Hd. rewrite metadata_cached by exact Hd. cbn [snd].
  apply tiles_only_refl. exact Hd.
Qed.

Lemma only_tiles_pano_id : only_tiles (pano_id network).
Proof.
  intros st. destruct (snd_accessors st) as (-> & _). apply only_tiles_metadata.
Qed.

Lemma only_tiles_num_rows : only_tiles (num_rows network).
Proof.
  intros st. destruct (snd_accessors st) as (_ & -> & _). apply only_tiles_metadata.
Qed.

Lemma only_tiles_num_columns : only_tiles (num_columns network).
Proof.
  intros st. destruct (snd_accessors st) as (_ & _ & ->). apply only_tiles_metadata.
Qed.

Lemma tile_url_not_metadata (pano : json) (zoom column row : Z) :
  metadata_url (tile_url pano zoom column row) = false.
Proof. reflexivity. Qed.

Lemma meta_url_of_is_metadata (s : StreetView) :
  metadata_url (meta_url_of s) = true.
Proof. reflexivity. Qed.

Ltac tiles :=
  repeat first
    [ apply only_tiles_ret | apply only_tiles_raise | apply only_tiles_lift
    | apply only_tiles_get_self | apply only_tiles_print | apply only_tiles_tqdm
    | apply only_tiles_pbar_update | apply only_tiles_save
    | apply only_tiles_pano_id | apply only_tiles_num_rows
    | apply only_tiles_num_columns
    | apply only_tiles_requests_get; apply tile_url_not_metadata
    | apply only_tiles_bind; [|intros ?]
    | match goal with
      | |- only_tiles (match ?x with _ => _ end) => destruct x
      | |- only_tiles (let (_, _) := ?x in _) => destruct x
      end ].

Lemma only_tiles_tile_step (row : Z) (cur : option Pic) (column : Z) :
  only_tiles (tile_step network row cur column).
Proof. unfold tile_step. tiles. Qed.

Lemma only_tiles_row_step (acc : option Pic * option Pic) (row : Z) :
  only_tiles (row_step network acc row).
Proof.
  unfold row_step. tiles.
  apply only_tiles_for_each. intros. apply only_tiles_tile_step.
Qed.

Lemma only_tiles_download (path fmt : string) :
  only_tiles (download network path fmt).
Proof.
  unfold download. tiles.
  apply only_tiles_for_each. intros. apply only_tiles_row_step.
Qed.

(** X11. On a session whose metadata is cached, [download] leaves the
    session object exactly as it is and sends nothing to the metadata
    endpoint: whatever the metadata holds and whatever the network answers,
    every request it issues is a tile request, added to the log. *)
Theorem download_resolved_only_tiles (path fmt : string) (st : St) :
  is_dict (_metadata (self st)) = true ->
  self (snd (download network path fmt st)) = self st
  /\ exists log,
       sent (world (snd (download network path fmt st)))
       = (sent (world st) ++ log)%list
       /\ Forall (fun entry => metadata_url (fst entry) = false) log.
Proof. intros Hd. exact (only_tiles_download path fmt st Hd). Qed.

(** ** The file and the progress bar *)

Lemma wn_ret {A} (a : A) : writes_nothing (ret (pixel := pixel) a).
Proof. intros st. split; reflexivity. Qed.

Lemma wn_raise {A} (e : exn) : writes_nothing (raise (pixel := pixel) (A := A) e).
Proof. intros st. split; reflexivity. Qed.

Lemma wn_lift {A} (r : result A) : writes_nothing (lift (pixel := pixel) r).
Proof. intros st. split; reflexivity. Qed.

Lemma wn_get_self : writes_nothing (get_self (pixel := pixel)).
Proof. intros st. split; reflexivity. Qed.

Lemma wn_tqdm (n : Z) : writes_nothing (tqdm (pixel := pixel) n).
Proof. intros st. split; reflexivity. Qed.

Lemma wn_pbar_update : writes_nothing (pbar_update (pixel := pixel)).
Proof. intros st. split; reflexivity. Qed.

Lemma wn_requests_get (url : string) :
  writes_nothing (requests_get (pixel := pixel) network url).
Proof.
  intros st. unfold requests_get. destruct (network _ url); split; reflexivity.
Qed.

Lemma wn_bind {A B} (m : M pixel A) (k : A -> M pixel B) :
  writes_nothing m -> (forall a, writes_nothing (k a)) ->
  writes_nothing (bind m k).
Proof.
  intros Hm Hk st. unfold bind. destruct (Hm st) as (H1 & H2).
  destruct (m st) as [[a|e] st1]; cbn [snd] in *.
  - destruct (Hk a st1) as (K1 & K2). split; congruence.
  - split; assumption.
Qed.

Lemma wn_for_each {A S} (body : S -> A -> M pixel S) (xs : list A) :
  (forall acc x, writes_nothing (body acc x)) ->
  forall acc, writes_nothing (for_each body xs acc).
Proof.
  intros Hbody. induction xs as [|x rest IH]; intros acc; cbn [for_each].
  - apply wn_ret.
  - apply wn_bind; [apply Hbody | exact IH].
Qed.

Lemma wn_metadata : writes_nothing (metadata network).
Proof. intros st. apply metadata_files. Qed.

Lemma wn_pano_id : writes_nothing (pano_id network).
Proof. intros st. destruct (snd_accessors st) as (-> & _). apply wn_metadata. Qed.

Lemma wn_num_rows : writes_nothing (num_rows network).
Proof.
  intros st. destruct (snd_accessors st) as (_ & -> & _). apply wn_metadata.
Qed.

Lemma wn_num_columns : writes_nothing (num_columns network).
Proof.
  intros st. destruct (snd_accessors st) as (_ & _ & ->). apply wn_metadata.
Qed.

Ltac quiet :=
  repeat first
    [ apply wn_ret | apply wn_raise | apply wn_lift | apply wn_get_self
    | apply wn_tqdm | apply wn_pbar_update | apply wn_requests_get
    | apply wn_pano_id | apply wn_num_rows | apply wn_num_columns
    | apply wn_bind; [|intros ?]
    | match goal with
      | |- writes_nothing (match ?x with _ => _ end) => destruct x
      | |- writes_nothing (let (_, _) := ?x in _) => destruct x
      end ].

Lemma wn_tile_step (row : Z) (cur : option Pic) (column : Z) :
  writes_nothing (tile_step network row cur column).
Proof. unfold tile_step. quiet. Qed.

Lemma wn_row_step (acc : option Pic * option Pic) (row : Z) :
  writes_nothing (row_step network acc row).
Proof.
  unfold row_step. quiet.
  apply wn_for_each. intros. apply wn_tile_step.
Qed.

(** A run that writes nothing and then ends with the save. *)
Lemma saves_at_bind {A B} (path fmt : string) (m : M pixel A)
  (k : A -> M pixel B) :
  writes_nothing m ->
  (forall a st, saves_at path fmt st (k a st)) ->
  forall st, saves_at path fmt st (bind m k st).
Proof.
  intros Hm Hk st. unfold bind. destruct (Hm st) as (H1 & H2).
  destruct (m st) as [[a|e] st1]; cbn [snd] in *.
  - specialize (Hk a st1). unfold saves_at in *. rewrite H1, H2 in Hk. exact Hk.
  - unfold saves_at. cbn [fst snd]. split; [exact H1 | left; exact H2].
Qed.

(** X12. [download] adds at most one file, and exactly when it returns:
    then the file is at the given path, in the given format, after the files
    there were, and no file was left incomplete.  When [download] raises,
    whatever raised, the files are as they were, and the only file that can
    have been left incomplete is the one at the given path, by a save that
    failed after opening it. *)
Theorem download_writes_one_file (path fmt : string) (st : St) :
  match fst (download network path fmt st) with
  | Ok _ =>
      (exists im,
         files (world (snd (download network path fmt st)))
         = (files (world st) ++ [(path, fmt, im)])%list)
      /\ spoiled (world (snd (download network path fmt st)))
         = spoiled (world st)
  | Raise _ =>
      files (world (snd (download network path fmt st))) = files (world st)
      /\ (spoiled (world (snd (download network path fmt st)))
          = spoiled (world st)
          \/ spoiled (world (snd (download network path fmt st)))
             = (spoiled (world st) ++ [path])%list)
  end.
Proof.
  change (saves_at path fmt st (download network path fmt st)).
  change (download network path fmt)
    with (bind (num_rows network) (fun nr =>
          bind (num_columns network) (fun nc =>
          bind (tqdm (nr * nc)) (fun _ =>
          bind (num_rows network) (fun n =>
          bind (for_each (row_step network) (range n) (None, None))
               (finish path fmt)))))).
  revert st.
  apply saves_at_bind; [apply wn_num_rows | intros nr].
  apply saves_at_bind; [apply wn_num_columns | intros nc].
  apply saves_at_bind; [apply wn_tqdm | intros _].
  apply saves_at_bind; [apply wn_num_rows | intros n].
  apply saves_at_bind; [apply wn_for_each; intros; apply wn_row_step|].
  intros acc st. apply finish_post.
Qed.


Section Progress.

Variable s : StreetView.
Variable pid : json.
Variable nc : Z.
Hypothesis s_cached : is_dict (_metadata s) = true.
Hypothesis s_pid : pano_id_of (_metadata s) = Ok pid.
Hypothesis s_nc : num_columns_of (_metadata s) (zoom_factor s) = Ok nc.



End Progress.



(** ** Failure of the metadata, and the script *)

(** X15. When [metadata] raises, [download] raises the same exception from
    its first statement and does nothing else: the state is the one
    [metadata] left, no tile is requested and no file is written. *)
Theorem download_without_metadata (path fmt : string) (st : St) (e : exn) :
  fst (metadata network st) = Raise e ->
  download network path fmt st = (Raise e, snd (metadata network st))
  /\ tile_log network path fmt st = []
  /\ files (world (snd (download network path fmt st))) = files (world st).
Proof.
  intros He.
  destruct (accessor_run st) as (_ & _ & _ & _ & _ & Anr & _). cbv zeta in Anr.
  rewrite He in Anr. cbn [rbind] in Anr.
  assert (Hdl : download network path fmt st
                = (Raise e, snd (metadata network st))).
  { rewrite download_unfold. unfold bind. rewrite Anr. reflexivity. }
  unfold tile_log. rewrite Hdl, Anr. cbn [snd].
  rewrite skipn_all. repeat split. apply metadata_files.
Qed.

Lemma main_unfold (st : St) :
  main network st
  = bind (num_rows network) (main_rest network) (with_self main_session st).
Proof. reflexivity. Qed.

Lemma only_tiles_main_rest (nr : Z) : only_tiles (main_rest network nr).
Proof.
  unfold main_rest.
  apply only_tiles_bind; [apply only_tiles_print | intros _].
  apply only_tiles_bind; [apply only_tiles_num_columns | intros nc].
  apply only_tiles_bind; [apply only_tiles_print | intros _].
  apply only_tiles_download.
Qed.

(** X14. The script constructs its session with zoom factor 4 and then
    reads [num_rows], reads [num_columns] and downloads: whatever the network
    answers, it sends exactly one request to the metadata endpoint, the first
    request it issues, for the URL of its coordinates; every later request is
    a tile request. *)
Theorem main_requests_metadata_once (st : St) :
  exists o log,
    sent (world (snd (main network st)))
    = (sent (world st) ++ (meta_url_of main_session, o) :: log)%list
    /\ metadata_url (meta_url_of main_session) = true
    /\ Forall (fun entry => metadata_url (fst entry) = false) log.
Proof.
  rewrite main_unfold. unfold bind.
  set (st0 := with_self main_session st).
  destruct (snd_accessors st0) as (_ & Hs & _).
  destruct (@metadata_uncached st0 eq_refl) as (Hsent & _ & _).
  rewrite <- Hs in Hsent.
  change (url_of (self st0)) with (meta_url_of main_session) in Hsent.
  change (sent (world st0)) with (sent (world st)) in Hsent.
  destruct (num_rows network st0) as [[nr|e] st1] eqn:Hnr; cbn [snd] in *.
  - destruct (read_int st0 st1 nr) as (Rr & _). specialize (Rr Hnr).
    apply resolved_after in Rr. destruct Rr as (Hd & _).
    destruct (only_tiles_main_rest nr st1 Hd) as (_ & log & Hl & Hf).
    eexists. exists log. split; [|split; [reflexivity | exact Hf]].
    rewrite Hl, Hsent, <- app_assoc. reflexivity.
  - eexists. exists []. split; [exact Hsent|]. split; [reflexivity | constructor].
Qed.

(** X16. At zoom factor 5, the highest the constructor accepts, nothing is
    scaled down: for an image width and height below 2^53 the output width
    and height are the original ones. *)
Theorem native_size_at_zoom_5 (st st1 st2 : St) (W H : Z) :
  original_width network st = (Ok W, st1) ->
  original_height network st = (Ok H, st2) ->
  0 <= W < 2 ^ 53 ->
  0 <= H < 2 ^ 53 ->
  zoom_factor (self st) = 5 ->
  output_width network st = (Ok W, st1)
  /\ output_height network st = (Ok H, st2).
Proof.
  intros HW HH BW BH Hz.
  destruct (accessor_run st) as (_ & Aw & Ah & Aow & Aoh & _).
  cbv zeta in *.
  rewrite Aw in HW. rewrite Ah in HH. rewrite Aow, Aoh.
  destruct (metadata network st) as [[md|e] st']; cbn [fst snd rbind] in *;
    [|discriminate].
  injection HW as HW <-. injection HH as HH <-.
  unfold output_width_of, output_height_of. rewrite HW, HH, Hz. cbn [rbind].
  rewrite !scale_exact by lia.
  change (2 ^ (5 - 5)) with 1. rewrite !Z.div_1_r. split; reflexivity.
Qed.

End Properties.

(** * The properties on concrete runs *)

Import Demo.

(** C2, at its failing input: the end-to-end scenario of the specification.
    With the metadata of a 16384 x 8192 panorama and zoom factor 4 the grid
    has 8 rows and 16 columns, all 128 tiles are requested and decode to
    512 x 512 images, and the download returns; the image it saves is
    8192 x 3584, one row of tiles short of 8192 x 4096. *)
Theorem scenario_composite_is_one_row_short :
  let st := fresh 4 in
  let res := download net_ok "output_image.png" "png" st in
  fst (num_rows net_ok st) = Ok 8
  /\ fst (num_columns net_ok st) = Ok 16
  /\ List.length (tile_log net_ok "output_image.png" "png" st) = 128%nat
  /\ all_fetched (tile_log net_ok "output_image.png" "png" st) = true
  /\ fst res = Ok tt
  /\ sizes (snd res) = [(8192, 3584)%N]
  /\ sizes (snd res) <> [(16 * 512, 8 * 512)%N].
Proof. vm_compute. repeat split; discriminate. Qed.

(** ** C1 *)

Lemma output_size_and_grid_witness :
  let st := resolved (dims 16384 8192) 2 in
  (0 <= 16384 < 2 ^ 53 /\ 0 <= 8192 < 2 ^ 53 /\ 1 <= zoom_factor (self st) <= 4)
  /\ output_width net_down st = (Ok 2048, st)
  /\ output_height net_down st = (Ok 1024, st)
  /\ num_columns net_down st = (Ok 4, st)
  /\ num_rows net_down st = (Ok 3, st).
Proof.
  cbv zeta.
  assert (HW : 0 <= 16384 < 2 ^ 53) by (split; [discriminate | reflexivity]).
  assert (HH : 0 <= 8192 < 2 ^ 53) by (split; [discriminate | reflexivity]).
  assert (Hz : 1 <= zoom_factor (self (resolved (dims 16384 8192) 2)) <= 4)
    by (split; discriminate).
  split; [exact (conj HW (conj HH Hz))|].
  exact (@output_size_and_grid rgb lib net_down
           (resolved (dims 16384 8192) 2) _ _ 16384 8192
           eq_refl eq_refl HW HH Hz).
Defined.

(** At [W = 2^53 + 3] and zoom factor 4 the quotient [W / 2] is rounded to
    the nearest float, an even integer one above the floor. *)
Lemma output_width_above_floor :
  ~ (forall (st st1 : State rgb) (W : Z),
       original_width net_down st = (Ok W, st1) ->
       0 <= W ->
       1 <= zoom_factor (self st) <= 4 ->
       output_width net_down st
       = (Ok (W / 2 ^ (5 - zoom_factor (self st))), st1)).
Proof.
  intros claim.
  specialize (claim (resolved (dims (2 ^ 53 + 3) 1) 4)
                    (resolved (dims (2 ^ 53 + 3) 1) 4) (2 ^ 53 + 3) eq_refl).
  assert (H : output_width net_down (resolved (dims (2 ^ 53 + 3) 1) 4)
              = (Ok 4503599627370498, resolved (dims (2 ^ 53 + 3) 1) 4))
    by (vm_compute; reflexivity).
  rewrite H in claim.
  assert (Hfalse : (Ok 4503599627370498, resolved (dims (2 ^ 53 + 3) 1) 4)
                   = (Ok 4503599627370497, resolved (dims (2 ^ 53 + 3) 1) 4)).
  { apply claim; [discriminate | split; discriminate]. }
  discriminate Hfalse.
Qed.

(** ** C3 *)

Lemma concat_mismatch_returns_witness :
  (height (tile 1 1) <> height (tile 1 2)
   /\ width (tile 2 1) <> width (tile 1 1))
  /\ (exists r, get_concat_h (tile 1 1) (tile 1 2) = Ok r
                /\ width r = 2%N /\ height r = 1%N
                /\ getpixel r 0 0 = (0, 0, 7)
                /\ getpixel r 1 0 = (0, 0, 7))
  /\ (exists r, get_concat_v (tile 2 1) (tile 1 1) = Ok r
                /\ height r = 2%N /\ width r = 2%N
                /\ getpixel r 0 1 = (0, 0, 7)
                /\ getpixel r 1 1 = (0, 0, 0)).
Proof.
  assert (Hh : height (tile 1 1) <> height (tile 1 2)) by discriminate.
  assert (Hw : width (tile 2 1) <> width (tile 1 1)) by discriminate.
  split; [split; assumption|].
  destruct (@concat_mismatch_returns rgb lib (tile 1 1) (tile 1 2)
              (tile 2 1) (tile 1 1) Hh Hw)
    as [(r & Hr & Hrw & Hrh & _ & Hleft & Hright)
        (r' & Hr' & Hrh' & Hrw' & _ & Hup & Hdown)].
  split.
  - exists r. split; [exact Hr|]. split; [exact Hrw|]. split; [exact Hrh|].
    split.
    + apply (Hleft 0%N 0%N); reflexivity.
    + apply (Hright 1%N 0%N); [split; [discriminate | reflexivity] | reflexivity].
  - exists r'. split; [exact Hr'|]. split; [exact Hrh'|]. split; [exact Hrw'|].
    split.
    + apply (Hdown 0%N 1%N); [reflexivity | split; [discriminate | reflexivity]].
    + apply (Hdown 1%N 1%N); [reflexivity | split; [discriminate | reflexivity]].
Defined.

(** A 1 x 1 and a 1 x 2 image are concatenated horizontally without an
    error, and so are a 2 x 1 and a 1 x 1 image vertically. *)
Lemma concat_accepts_mismatch :
  ~ (forall im1 im2 : Image rgb,
       height im1 <> height im2 -> exists e, get_concat_h im1 im2 = Raise e)
  /\ ~ (forall im1 im2 : Image rgb,
          width im1 <> width im2 -> exists e, get_concat_v im1 im2 = Raise e).
Proof.
  split; intros claim.
  - destruct (claim (tile 1 1) (tile 1 2)) as (e & He); discriminate.
  - destruct (claim (tile 2 1) (tile 1 1)) as (e & He); discriminate.
Qed.

(** ** C7 *)

Lemma fold_concat_sizes_witness :
  (Forall (fun im : Image rgb => height im = 512%N)
     [tile 512 512; tile 512 512; tile 100 512]
   /\ Forall (fun im : Image rgb => width im = 1124%N)
        [tile 1124 512; tile 1124 40])
  /\ (exists r, fold_concat get_concat_h (tile 512 512)
                  [tile 512 512; tile 100 512] = Ok r
                /\ height r = 512%N /\ width r = 1124%N)
  /\ (exists r, fold_concat get_concat_v (tile 1124 512) [tile 1124 40] = Ok r
                /\ width r = 1124%N /\ height r = 552%N).
Proof.
  assert (Ht : Forall (fun im : Image rgb => height im = 512%N)
                 [tile 512 512; tile 512 512; tile 100 512])
    by (repeat constructor).
  assert (Hr : Forall (fun im : Image rgb => width im = 1124%N)
                 [tile 1124 512; tile 1124 40])
    by (repeat constructor).
  split; [split; assumption|].
  exact (@fold_concat_sizes rgb lib 512%N 1124%N (tile 512 512)
           [tile 512 512; tile 100 512] (tile 1124 512) [tile 1124 40] Ht Hr).
Defined.

(** ** C9 *)

Lemma concat_never_rejects_witness :
  exists r, get_concat_h (tile 1 2) (tile 2 1) = Ok r
            /\ width r = 3%N /\ height r = 2%N
            /\ getpixel r 2 0 = (1, 0, 7)
            /\ getpixel r 2 1 = (0, 0, 0).
Proof.
  destruct (@concat_never_rejects rgb lib (tile 1 2) (tile 2 1))
    as [(r & Hr & _ & Hw & Hh & Hin & Hout) _].
  exists r. split; [exact Hr|]. split; [exact Hw|]. split; [exact Hh|].
  split.
  - apply (Hin 2%N 0%N); [split; [discriminate | reflexivity] | reflexivity].
  - apply (Hout 2%N 1%N); discriminate.
Defined.

(** ** C6 *)

Lemma download_requests_row_major_witness :
  let st := resolved (dims 2048 2048) 4 in
  (num_rows net_ok st = (Ok 2, st)
   /\ num_columns net_ok st = (Ok 2, st)
   /\ pano_id net_ok st = (Ok (JStr "X"), st))
  /\ map fst (tile_log net_ok "out.png" "png" st)
     = ["https://cbks2.google.com/cbk?cb_client=maps_sv.tactile&authuser=%200&hl=en&panoid=X&output=tile&zoom=4&x=0&y=0";
        "https://cbks2.google.com/cbk?cb_client=maps_sv.tactile&authuser=%200&hl=en&panoid=X&output=tile&zoom=4&x=1&y=0";
        "https://cbks2.google.com/cbk?cb_client=maps_sv.tactile&authuser=%200&hl=en&panoid=X&output=tile&zoom=4&x=0&y=1";
        "https://cbks2.google.com/cbk?cb_client=maps_sv.tactile&authuser=%200&hl=en&panoid=X&output=tile&zoom=4&x=1&y=1"].
Proof.
  cbv zeta.
  assert (Hr : num_rows net_ok (resolved (dims 2048 2048) 4)
               = (Ok 2, resolved (dims 2048 2048) 4))
    by (vm_compute; reflexivity).
  assert (Hc : num_columns net_ok (resolved (dims 2048 2048) 4)
               = (Ok 2, resolved (dims 2048 2048) 4))
    by (vm_compute; reflexivity).
  assert (Hp : pano_id net_ok (resolved (dims 2048 2048) 4)
               = (Ok (JStr "X"), resolved (dims 2048 2048) 4))
    by (vm_compute; reflexivity).
  split; [exact (conj Hr (conj Hc Hp))|].
  destruct (@download_requests_row_major rgb lib net_ok "out.png" "png"
              (resolved (dims 2048 2048) 4) _ 2 2 (JStr "X") Hr Hc Hp)
    as (_ & _ & _ & Hall & _).
  apply Hall. vm_compute. reflexivity.
Defined.

(** When the first tile request fails, one request of the two of the grid
    is issued. *)
Lemma download_requests_fall_short :
  ~ (forall (st st1 : State rgb) (nr nc : Z),
       num_rows net_tiles_down st = (Ok nr, st1) ->
       num_columns net_tiles_down st = (Ok nc, st1) ->
       Z.of_nat (List.length (tile_log net_tiles_down "out.png" "png" st))
       = nr * nc).
Proof.
  intros claim.
  assert (Hr : num_rows net_tiles_down (fresh 1)
               = (Ok 1, snd (num_rows net_tiles_down (fresh 1))))
    by (vm_compute; reflexivity).
  assert (Hc : num_columns net_tiles_down (fresh 1)
               = (Ok 2, snd (num_rows net_tiles_down (fresh 1))))
    by (vm_compute; reflexivity).
  specialize (claim (fresh 1) _ 1 2 Hr Hc).
  vm_compute in claim. discriminate claim.
Qed.

(** ** C5 *)




(** ** C8 *)

Lemma reads_fetch_until_cached_witness :
  let st := resolved scenario 2 in
  let st0 := fresh 2 in
  (is_dict (_metadata (self st)) = true
   /\ is_dict (_metadata (self st0)) = false)
  /\ read net_down Num_rows st = (Ok (VInt 3), st)
  /\ run_reads net_down [Num_rows; Pano_id; Output_width] st = st
  /\ List.length (sent (world (snd (read net_ok Num_rows st0)))) = 1%nat
  /\ _metadata (self (snd (read net_ok Num_rows st0))) = scenario
  /\ (List.length (sent (world (snd (read net_list Num_rows st0)))) = 1%nat
      /\ is_dict (_metadata (self (snd (read net_list Num_rows st0)))) = false).
Proof.
  cbv zeta. split; [split; reflexivity|].
  destruct (@reads_fetch_until_cached rgb lib net_down Num_rows
              (resolved scenario 2)) as (_ & _ & _ & Hcached).
  destruct (Hcached eq_refl) as (Hread & Hruns).
  split; [exact Hread|]. split; [apply Hruns|].
  destruct (@reads_fetch_until_cached rgb lib net_ok Num_rows (fresh 2))
    as (_ & Hfetch & _).
  destruct (Hfetch eq_refl) as (Hsent & _ & Hparsed).
  split; [rewrite Hsent; reflexivity|].
  split; [apply (Hparsed _ scenario eq_refl eq_refl eq_refl)|].
  destruct (@reads_fetch_until_cached rgb lib net_list Num_rows (fresh 2))
    as (_ & Hagain & _).
  destruct (Hagain eq_refl) as (Hsent' & Hnone & _).
  split; [rewrite Hsent'; reflexivity | exact Hnone].
Defined.

(** When the metadata response parses to a JSON list, every read issues the
    metadata request again. *)
Lemma metadata_requested_again :
  ~ (forall reads : list accessor,
       (List.length (sent (world (run_reads net_list reads (fresh 4)))) <= 1)%nat).
Proof.
  intros claim. specialize (claim [Original_width; Original_width]).
  vm_compute in claim. lia.
Qed.

(** ** C10 *)

Lemma operations_frame_witness :
  let st := resolved scenario 4 in
  let st' := run_op net_ok (Download "out.png" "png") st in
  is_dict (_metadata (self st)) = true
  /\ _metadata (self st') = _metadata (self st)
  /\ zoom_factor (self st') = 4
  /\ snd (__init__ (mkFloat 40 0) (mkFloat (-75) 0) 4 st) = st.
Proof.
  cbv zeta.
  destruct (@operations_frame rgb lib net_ok (mkFloat 40 0) (mkFloat (-75) 0) 4
              (Download "out.png" "png") (resolved scenario 4))
    as (Hinit & _ & _ & Hzoom & _ & _ & _ & Hmd).
  split; [reflexivity|]. split; [exact (Hmd eq_refl)|].
  split; [exact Hzoom | exact Hinit].
Defined.

(** After a response that parsed to a JSON list, [_metadata] holds the list
    and the next read writes it again, with what the next response parses
    to. *)
Lemma metadata_written_again :
  ~ (forall (op : operation) (st : State rgb),
       _metadata (self st) <> JNull ->
       _metadata (self (run_op net_list_then_ok op st)) = _metadata (self st)).
Proof.
  intros claim.
  specialize (claim (Read Original_width)
                (run_op net_list_then_ok (Read Original_width) (fresh 4))).
  vm_compute in claim.
  assert (H : JList [] <> JNull) by discriminate.
  specialize (claim H). discriminate claim.
Qed.

(** * The further properties on concrete runs *)

Lemma metadata_first_fetch_witness :
  let st := fresh 4 in
  (is_dict (_metadata (self st)) = false
   /\ net_ok (List.length (sent (world st))) (url_of (self st))
      = Resp (mkResponse 200 [x7b; x7d])
   /\ json_loads [x7b; x7d] = Ok scenario)
  /\ fst (metadata net_ok st) = Ok scenario
  /\ _metadata (self (snd (metadata net_ok st))) = scenario
  /\ List.length (sent (world (snd (metadata net_ok st)))) = 1%nat.
Proof.
  cbv zeta.
  split; [repeat split|].
  destruct (@metadata_first_fetch rgb lib net_ok (fresh 4)
              (mkResponse 200 [x7b; x7d]) scenario eq_refl eq_refl eq_refl)
    as (Hr & Hm & _ & Hs).
  split; [exact Hr|]. split; [exact Hm|]. rewrite Hs. reflexivity.
Defined.

Lemma metadata_failure_keeps_cache_witness :
  let st := fresh 4 in
  (is_dict (_metadata (self st)) = false
   /\ net_down (List.length (sent (world st))) (url_of (self st)) = NetError)
  /\ is_ok (fst (metadata net_down st)) = false
  /\ _metadata (self (snd (metadata net_down st))) = JNull
  /\ List.length (sent (world (snd (metadata net_down st)))) = 1%nat.
Proof.
  cbv zeta. split; [split; reflexivity|].
  exact (@metadata_failure_keeps_cache rgb lib net_down (fresh 4) eq_refl
           (or_introl eq_refl)).
Defined.

Lemma sizes_need_Data_witness :
  let st := resolved (JDict []) 4 in
  (_metadata (self st) = JDict [] /\ assoc "Data" [] = None)
  /\ original_width net_down st = (Raise KeyError, st)
  /\ num_rows net_down st = (Raise KeyError, st).
Proof.
  cbv zeta. split; [split; reflexivity|].
  destruct (@sizes_need_Data rgb lib net_down (resolved (JDict []) 4) []
              eq_refl eq_refl) as (Hw & _ & _ & _ & Hr & _).
  split; [exact Hw | exact Hr].
Defined.

Lemma pano_id_first_link_witness :
  let st := resolved (JDict [("Links", JList [])]) 4 in
  (_metadata (self st) = JDict [("Links", JList [])]
   /\ assoc "Links" [("Links", JList [])] = Some (JList []))
  /\ pano_id net_down st = (Raise IndexError, st).
Proof.
  cbv zeta. split; [split; reflexivity|].
  destruct (@pano_id_first_link rgb lib net_down
              (resolved (JDict [("Links", JList [])]) 4)
              [("Links", JList [])] eq_refl) as (_ & Hempty & _).
  exact (Hempty eq_refl).
Defined.

Lemma grid_covers_output_witness :
  let st := resolved (dims 16384 8192) 2 in
  (output_width net_down st = (Ok 2048, st)
   /\ output_height net_down st = (Ok 1024, st)
   /\ 0 <= 2048 < 2 ^ 53 /\ 0 <= 1024 < 2 ^ 53)
  /\ exists nc nr,
       num_columns net_down st = (Ok nc, st)
       /\ num_rows net_down st = (Ok nr, st)
       /\ 512 * (nc - 1) < 2048 <= 512 * nc
       /\ (zoom_factor (self st) <> 2 -> 512 * (nr - 1) < 1024 <= 512 * nr)
       /\ (zoom_factor (self st) = 2 ->
           512 * (nr - 2) < 1024 <= 512 * (nr - 1)).
Proof.
  cbv zeta.
  assert (Hw : output_width net_down (resolved (dims 16384 8192) 2)
               = (Ok 2048, resolved (dims 16384 8192) 2))
    by (vm_compute; reflexivity).
  assert (Hh : output_height net_down (resolved (dims 16384 8192) 2)
               = (Ok 1024, resolved (dims 16384 8192) 2))
    by (vm_compute; reflexivity).
  assert (Bw : 0 <= 2048 < 2 ^ 53) by (split; [discriminate | reflexivity]).
  assert (Bh : 0 <= 1024 < 2 ^ 53) by (split; [discriminate | reflexivity]).
  split; [exact (conj Hw (conj Hh (conj Bw Bh)))|].
  exact (@grid_covers_output rgb lib net_down (resolved (dims 16384 8192) 2)
           _ _ 2048 1024 Hw Hh Bw Bh).
Defined.

Lemma output_grows_with_zoom_witness :
  let st := resolved (dims 16384 8192) 1 in
  let st' := resolved (dims 16384 8192) 4 in
  (is_dict (_metadata (self st)) = true
   /\ _metadata (self st') = _metadata (self st)
   /\ original_width_of (_metadata (self st)) = Ok 16384
   /\ original_height_of (_metadata (self st)) = Ok 8192
   /\ 0 <= 16384 < 2 ^ 53 /\ 0 <= 8192 < 2 ^ 53
   /\ 1 <= zoom_factor (self st) <= zoom_factor (self st')
   /\ zoom_factor (self st') <= 5)
  /\ exists w w' h h' c c',
       output_width net_down st = (Ok w, st)
       /\ output_width net_down st' = (Ok w', st')
       /\ output_height net_down st = (Ok h, st)
       /\ output_height net_down st' = (Ok h', st')
       /\ num_columns net_down st = (Ok c, st)
       /\ num_columns net_down st' = (Ok c', st')
       /\ w <= w' /\ h <= h' /\ c <= c'.
Proof.
  cbv zeta.
  assert (BW : 0 <= 16384 < 2 ^ 53) by (split; [discriminate | reflexivity]).
  assert (BH : 0 <= 8192 < 2 ^ 53) by (split; [discriminate | reflexivity]).
  assert (Hz : 1 <= zoom_factor (self (resolved (dims 16384 8192) 1))
               <= zoom_factor (self (resolved (dims 16384 8192) 4)))
    by (split; discriminate).
  assert (Hz5 : zoom_factor (self (resolved (dims 16384 8192) 4)) <= 5)
    by discriminate.
  split.
  - exact (conj eq_refl (conj eq_refl (conj eq_refl (conj eq_refl
             (conj BW (conj BH (conj Hz Hz5))))))).
  - exact (@output_grows_with_zoom rgb lib net_down
             (resolved (dims 16384 8192) 1) (resolved (dims 16384 8192) 4)
             16384 8192 eq_refl eq_refl eq_refl eq_refl BW BH Hz Hz5).
Defined.

Lemma concat_keeps_both_witness :
  (height (tile 2 3) = height (tile 4 3) /\ width (tile 3 2) = width (tile 3 5))
  /\ (exists r, get_concat_h (tile 2 3) (tile 4 3) = Ok r
                /\ width r = 6%N /\ height r = 3%N
                /\ getpixel r 1 2 = (1, 2, 7)
                /\ getpixel r 5 2 = (3, 2, 7))
  /\ (exists r, get_concat_v (tile 3 2) (tile 3 5) = Ok r
                /\ width r = 3%N /\ height r = 7%N
                /\ getpixel r 2 1 = (2, 1, 7)
                /\ getpixel r 2 6 = (2, 4, 7)).
Proof.
  split; [split; reflexivity|].
  destruct (@concat_keeps_both rgb lib (tile 2 3) (tile 4 3) (tile 3 2)
              (tile 3 5) eq_refl eq_refl)
    as ((r & Hr & _ & Hw & Hh & _ & Hp) & (r' & Hr' & _ & Hw' & _ & Hh' & Hp')).
  split.
  - exists r. split; [exact Hr|]. split; [exact Hw|]. split; [exact Hh|]. split.
    + apply (Hp 1%N 2%N); [rewrite Hw | rewrite Hh]; reflexivity.
    + apply (Hp 5%N 2%N); [rewrite Hw | rewrite Hh]; reflexivity.
  - exists r'. split; [exact Hr'|]. split; [exact Hw'|]. split; [exact Hh'|].
    split.
    + apply (Hp' 2%N 1%N); [rewrite Hw' | rewrite Hh']; reflexivity.
    + apply (Hp' 2%N 6%N); [rewrite Hw' | rewrite Hh']; reflexivity.
Defined.

Lemma download_empty_grid_witness :
  let st := resolved (dims 0 0) 4 in
  (num_rows net_down st = (Ok 0, st)
   /\ num_columns net_down st = (Ok 0, st)
   /\ (0 <= 0 \/ 0 <= 0))
  /\ fst (download net_down "out.png" "png" st) = Raise AttributeError
  /\ tile_log net_down "out.png" "png" st = []
  /\ files (world (snd (download net_down "out.png" "png" st))) = [].
Proof.
  cbv zeta.
  assert (Hr : num_rows net_down (resolved (dims 0 0) 4)
               = (Ok 0, resolved (dims 0 0) 4)) by (vm_compute; reflexivity).
  assert (Hc : num_columns net_down (resolved (dims 0 0) 4)
               = (Ok 0, resolved (dims 0 0) 4)) by (vm_compute; reflexivity).
  assert (He : 0 <= 0 \/ 0 <= 0) by (left; discriminate).
  split; [exact (conj Hr (conj Hc He))|].
  destruct (@download_empty_grid rgb lib net_down "out.png" "png"
              (resolved (dims 0 0) 4) _ 0 0 Hr Hc He) as (H1 & H2 & H3 & _).
  split; [exact H1|]. split; [exact H2 | exact H3].
Defined.



Lemma download_resolved_only_tiles_witness :
  let st := resolved scenario 1 in
  is_dict (_metadata (self st)) = true
  /\ self (snd (download net_ok "out.png" "png" st)) = self st
  /\ exists log,
       sent (world (snd (download net_ok "out.png" "png" st)))
       = (sent (world st) ++ log)%list
       /\ Forall (fun entry => metadata_url (fst entry) = false) log.
Proof.
  cbv zeta. split; [reflexivity|].
  exact (@download_resolved_only_tiles rgb lib net_ok "out.png" "png"
           (resolved scenario 1) eq_refl).
Defined.

Lemma download_writes_one_file_witness :
  let st := fresh 1 in
  (exists im,
     files (world (snd (download net_ok "out.png" "png" st)))
     = [("out.png", "png", im)])
  /\ files (world (snd (download net_tiles_down "out.png" "png" st))) = [].
Proof.
  cbv zeta.
  pose proof (@download_writes_one_file rgb lib net_ok "out.png" "png" (fresh 1))
    as Hok.
  pose proof (@download_writes_one_file rgb lib net_tiles_down "out.png" "png"
                (fresh 1)) as Hdown.
  split.
  - destruct (fst (download net_ok "out.png" "png" (fresh 1))) eqn:Hres.
    + destruct Hok as ((im & Hf) & _). exists im. exact Hf.
    + vm_compute in Hres. discriminate Hres.
  - destruct (fst (download net_tiles_down "out.png" "png" (fresh 1))) eqn:Hres.
    + vm_compute in Hres. discriminate Hres.
    + destruct Hdown as (Hf & _). exact Hf.
Defined.


Lemma download_without_metadata_witness :
  let st := fresh 4 in
  fst (metadata net_down st) = Raise ConnectionError
  /\ fst (download net_down "out.png" "png" st) = Raise ConnectionError
  /\ tile_log net_down "out.png" "png" st = []
  /\ files (world (snd (download net_down "out.png" "png" st))) = [].
Proof.
  cbv zeta. split; [reflexivity|].
  destruct (@download_without_metadata rgb lib net_down "out.png" "png"
              (fresh 4) ConnectionError eq_refl) as (Hd & Hl & Hf).
  split; [rewrite Hd; reflexivity|]. split; [exact Hl | exact Hf].
Defined.

Lemma native_size_at_zoom_5_witness :
  let st := resolved (dims 16384 8192) 5 in
  (original_width net_down st = (Ok 16384, st)
   /\ original_height net_down st = (Ok 8192, st)
   /\ 0 <= 16384 < 2 ^ 53 /\ 0 <= 8192 < 2 ^ 53
   /\ zoom_factor (self st) = 5)
  /\ output_width net_down st = (Ok 16384, st)
  /\ output_height net_down st = (Ok 8192, st).
Proof.
  cbv zeta.
  assert (BW : 0 <= 16384 < 2 ^ 53) by (split; [discriminate | reflexivity]).
  assert (BH : 0 <= 8192 < 2 ^ 53) by (split; [discriminate | reflexivity]).
  split.
  - exact (conj eq_refl (conj eq_refl (conj BW (conj BH eq_refl)))).
  - exact (@native_size_at_zoom_5 rgb lib net_down
             (resolved (dims 16384 8192) 5) _ _ 16384 8192
             eq_refl eq_refl BW BH eq_refl).
Defined.

